(** * Module resolution policy of the Rollup build (scripts/rollup/modules.js)

    A shallow embedding of [scripts/rollup/modules.js]: the tables the build
    hands to Rollup (aliases, externals, textual replacements), as functions
    of the bundle type and the module type.

    JavaScript objects used as string-keyed tables are [gmap string string];
    arrays of module names are [list string]. *)

From Stdlib Require Import Ascii String.
From stdpp Require Import gmap strings list.

Local Open Scope string_scope.
Local Open Scope list_scope.

(** ** Node's [path] module (POSIX flavour)

    [modules.js] uses [path.resolve] with one argument and [path.basename]
    with an extension.  Both are pure string functions once the working
    directory is fixed. *)
Module Path.

(** The pieces of a path between consecutive ['/'] characters. *)
Fixpoint split (s : string) : list string :=
  match s with
  | EmptyString => [EmptyString]
  | String c r =>
      if Ascii.eqb c "/" then EmptyString :: split r
      else match split r with
           | seg :: segs => String c seg :: segs
           | [] => [String c EmptyString]
           end
  end.

(** One step of [normalizeString] on an absolute path: the stack holds the
    directories entered so far, innermost first. *)
Definition step (stack : list string) (seg : string) : list string :=
  if String.eqb seg "" then stack
  else if String.eqb seg "." then stack
  else if String.eqb seg ".." then tail stack
  else seg :: stack.

Definition normalize (segs : list string) : list string :=
  rev (fold_left step segs []).

Fixpoint join (segs : list string) : string :=
  match segs with
  | [] => ""
  | [seg] => seg
  | seg :: rest => seg +:+ "/" +:+ join rest
  end.

Definition isAbsolute (p : string) : bool :=
  match p with
  | String c _ => Ascii.eqb c "/"
  | EmptyString => false
  end.

(** [path.resolve(p)] in a process whose working directory is [cwd]. *)
Definition resolve (cwd p : string) : string :=
  "/" +:+ join (normalize (split (if isAbsolute p then p
                                  else cwd +:+ "/" +:+ p))).

Fixpoint last_nonempty (segs : list string) (acc : string) : string :=
  match segs with
  | [] => acc
  | seg :: rest => last_nonempty rest (if String.eqb seg "" then acc else seg)
  end.

(** [strip_suffix ext s] is [Some r] when [s = r ++ ext]. *)
Fixpoint strip_suffix (ext s : string) : option string :=
  if String.eqb s ext then Some ""
  else match s with
       | EmptyString => None
       | String c r => String c <$> strip_suffix ext r
       end.

(** [path.basename(p, ext)]: the last non-empty segment, without [ext]
    unless the segment is [ext] itself. *)
Definition basename (p ext : string) : string :=
  if String.eqb p ext then ""
  else
    let seg := last_nonempty (split p) "" in
    if String.eqb seg ext then seg
    else match strip_suffix ext seg with
         | Some stem => stem
         | None => seg
         end.

End Path.

(** ** Data model *)

(** A table from module names to paths or literals: a JavaScript object
    whose properties are strings. *)
Abbreviation table := (gmap string string).

(** [bundleTypes] of [scripts/rollup/bundles.js]: the eight registered
    values, pairwise distinct, and [OtherBundleType n] for any value that is
    none of them. *)
Inductive bundleType : Type :=
  | UMD_DEV | UMD_PROD
  | NODE_DEV | NODE_PROD
  | FB_DEV | FB_PROD
  | RN_DEV | RN_PROD
  | OtherBundleType (n : nat).

(** [moduleTypes] of [scripts/rollup/bundles.js]; [OtherModuleType n] is a
    value that is neither of the two the code compares with. *)
Inductive moduleType : Type :=
  | ISOMORPHIC
  | RENDERER
  | OtherModuleType (n : nat).

#[global] Instance bundleType_eq_dec : EqDecision bundleType.
Proof. solve_decision. Defined.

#[global] Instance moduleType_eq_dec : EqDecision moduleType.
Proof. solve_decision. Defined.

Definition registered (b : bundleType) : Prop :=
  match b with OtherBundleType _ => False | _ => True end.

(** A JavaScript value as far as [Array.isArray] can tell them apart; the
    elements of an array are module names. *)
Inductive value : Type :=
  | Undefined
  | Null
  | Boolean (b : bool)
  | Number (n : Z)
  | Text (s : string)
  | Array (elems : list string)
  | Object (props : table).

Definition isArray (v : value) : bool :=
  match v with Array _ => true | _ => false end.

Record errorCodeOptions : Type := { errorMapFilePath : string }.

(** ** Calls and their completions

    A call runs in a world (the file system and the error-code registry
    that the collaborators read and write) and either returns or throws. *)
Inductive completion (world exn A : Type) : Type :=
  | Normal (a : A) (w : world)
  | Throw (e : exn) (w : world).
Arguments Normal {world exn A} a w.
Arguments Throw {world exn A} e w.

Definition M (world exn A : Type) : Type := world -> completion world exn A.

Definition ret {world exn A} (a : A) : M world exn A := fun w => Normal a w.

Definition bind {world exn A B} (m : M world exn A) (k : A -> M world exn B)
  : M world exn B :=
  fun w => match m w with
           | Normal a w' => k a w'
           | Throw e w' => Throw e w'
           end.

Declare Scope js_scope.
Delimit Scope js_scope with js.
Notation "x <- m ;; k" := (bind m (fun x => k))
  (at level 100, m at next level, right associativity) : js_scope.
Notation "m ;;; k" := (bind m (fun _ => k))
  (at level 100, right associativity) : js_scope.

(** [array.forEach(callback)] where the callback updates an object captured
    from the enclosing scope: the object is passed from call to call. *)
Fixpoint forEach {world exn A S} (array : list A)
    (callback : A -> S -> M world exn S) (s : S) : M world exn S :=
  match array with
  | [] => ret s
  | x :: rest => bind (callback x s) (forEach rest callback)
  end.

(** [array.push(x)] *)
Definition push (array : list string) (x : string) : list string := array ++ [x].

(** [array.indexOf(x)]: the first position of [x], or [-1]. *)
Fixpoint indexOf (array : list string) (x : string) : Z :=
  match array with
  | [] => -1
  | y :: rest =>
      if String.eqb y x then 0
      else let i := indexOf rest x in
           if (i <? 0)%Z then -1 else (i + 1)%Z
  end.

(** [string.includes('/')] *)
Fixpoint includes_slash (s : string) : bool :=
  match s with
  | EmptyString => false
  | String c r => Ascii.eqb c "/" || includes_slash r
  end.

(** [object[key] = v] on a plain object, for a string [v]: the setter of
    [__proto__] inherited from [Object.prototype] ignores strings, every
    other key becomes (or updates) an own property. *)
Definition set_property (key v : string) (object : table) : table :=
  if String.eqb key "__proto__" then object else <[key := v]> object.

(** [Object.assign(target, ...sources)]: the properties of each source are
    copied into the target in turn; an [undefined] source is skipped. *)
Definition assign_source (target : table) (source : option table) : table :=
  match source with
  | Some s => s ∪ target
  | None => target
  end.

Definition Object_assign (target : table) (sources : list (option table)) : table :=
  fold_left assign_source sources target.

(** ** scripts/rollup/modules.js *)

Definition exclude : list string :=
  [ "**/__benchmarks__/**/*.js";
    "**/__tests__/**/*.js";
    "**/__mocks__/**/*.js" ].

Definition errorCodeOpts : errorCodeOptions :=
  {| errorMapFilePath := "scripts/error-codes/codes.json" |}.

(** these are the FBJS modules that are used throughout our bundles *)
Definition fbjsModules : list string :=
  [ "fbjs/lib/warning";
    "fbjs/lib/invariant";
    "fbjs/lib/emptyFunction";
    "fbjs/lib/emptyObject";
    "fbjs/lib/hyphenateStyleName";
    "fbjs/lib/getUnboundedScrollPosition";
    "fbjs/lib/camelizeStyleName";
    "fbjs/lib/containsNode";
    "fbjs/lib/shallowEqual";
    "fbjs/lib/getActiveElement";
    "fbjs/lib/focusNode";
    "fbjs/lib/EventListener";
    "fbjs/lib/memoizeStringOnly";
    "fbjs/lib/ExecutionEnvironment";
    "fbjs/lib/createNodesFromMarkup";
    "fbjs/lib/performanceNow" ].

Definition devOnlyFilesToStubOut : list string :=
  [ "'ReactDebugCurrentFrame'";
    "'ReactComponentTreeHook'";
    "'ReactPerf'";
    "'ReactTestUtils'" ].

Definition legacyModules : list string :=
  [ "create-react-class";
    "create-react-class/factory";
    "prop-types";
    "prop-types/checkPropTypes" ].

Definition ignoreFBModules : list string :=
  [ "React"; "ReactDOM"; "ReactFeatureFlags"; "ReactCurrentOwner";
    "lowPriorityWarning" ].

Definition ignoreReactNativeModules : list string := [ "View" ].

Definition getExcludedHasteGlobs : list string := exclude.

Section Modules.

(** The world the collaborators act on, what they throw, and the working
    directory of the build. *)
Context {world exn : Type}.
Variable cwd : string.

(** [glob.sync(pattern, {ignore})] *)
Variable sync : string -> list string -> M world exn (list string).

(** [require('../error-codes/extract-errors')]: called with the options,
    it returns the hook that is run on every file. *)
Variable extractErrorCodes :
  errorCodeOptions -> M world exn (string -> M world exn unit).

Local Open Scope js_scope.

Definition resolve : string -> string := Path.resolve cwd.
Definition basename : string -> string -> string := Path.basename.

(** The files of every pattern, in order, each entered under its base
    name: the two nested [forEach] of [createModuleMap]. *)
Definition scanModules (paths : list string)
    (extractErrors : option (string -> M world exn unit)) : M world exn table :=
  forEach paths (fun path moduleMap =>
    files <- sync path exclude ;;
    forEach files (fun file moduleMap =>
      match extractErrors with
      | Some hook => hook file
      | None => ret tt
      end ;;;
      let moduleName := basename file ".js" in
      ret (set_property moduleName (resolve file) moduleMap)) moduleMap) ∅.

Definition createModuleMap (paths : list string)
    (extractErrors : option (string -> M world exn unit))
    (bundleType : bundleType) : M world exn table :=
  moduleMap <- scanModules paths extractErrors ;;
  if decide (bundleType = FB_DEV \/ bundleType = FB_PROD)
  then ret (delete "lowPriorityWarning" (delete "ReactCurrentOwner" moduleMap))
  else ret moduleMap.

(** A [switch] without [default] returns [undefined] ([None]) when no
    case matches. *)
Definition getNodeModules (bundleType : bundleType) (moduleType : moduleType)
  : option table :=
  match bundleType with
  | UMD_DEV | UMD_PROD =>
      Some (<["art/core/transform" := resolve "./node_modules/art/core/transform.js"]>
           (<["art/modes/fast-noSideEffects" :=
                resolve "./node_modules/art/modes/fast-noSideEffects.js"]>
           (<["art/modes/current" := resolve "./node_modules/art/modes/current.js"]>
           (<["object-assign" :=
                if decide (moduleType = ISOMORPHIC)
                then resolve "./node_modules/object-assign/index.js"
                else resolve "./scripts/rollup/shims/rollup/assign.js"]> ∅))))
  | NODE_DEV | NODE_PROD | FB_DEV | FB_PROD | RN_DEV | RN_PROD => Some ∅
  | OtherBundleType _ => None
  end.

Definition getExternalModules (externals : list string)
    (bundleType : bundleType) (moduleType : moduleType) : M world exn (list string) :=
  let externalModules := externals in
  match bundleType with
  | UMD_DEV | UMD_PROD =>
      if decide (moduleType <> ISOMORPHIC)
      then ret (push externalModules "react")
      else ret externalModules
  | NODE_DEV | NODE_PROD | RN_DEV | RN_PROD =>
      let externalModules := fold_left push fbjsModules externalModules in
      let externalModules := push externalModules "object-assign" in
      if decide (moduleType <> ISOMORPHIC)
      then ret (push externalModules "react")
      else ret externalModules
  | FB_DEV | FB_PROD =>
      let externalModules := fold_left push fbjsModules externalModules in
      let externalModules := push externalModules "object-assign" in
      let externalModules := push externalModules "ReactCurrentOwner" in
      let externalModules := push externalModules "lowPriorityWarning" in
      if decide (moduleType <> ISOMORPHIC)
      then
        let externalModules := push externalModules "React" in
        if (indexOf externalModules "react-dom" >? -1)%Z
        then ret (push externalModules "ReactDOM")
        else ret externalModules
      else ret externalModules
  | OtherBundleType _ => ret externalModules
  end.

Definition getInternalModules (moduleType : moduleType) : table :=
  let aliases :=
    <["reactProdInvariant" := resolve "./packages/shared/reactProdInvariant.js"]>
      (∅ : table) in
  if decide (moduleType = RENDERER)
  then set_property "react-reconciler"
         (resolve "./packages/react-reconciler/index.js") aliases
  else aliases.

Definition getFbjsModuleAliases (bundleType : bundleType) : option table :=
  match bundleType with
  | UMD_DEV | UMD_PROD =>
      Some (fold_left (fun fbjsModulesAlias fbjsModule =>
              set_property fbjsModule (resolve ("./node_modules/" +:+ fbjsModule))
                fbjsModulesAlias)
            fbjsModules ∅)
  | NODE_DEV | NODE_PROD | FB_DEV | FB_PROD | RN_DEV | RN_PROD => Some ∅
  | OtherBundleType _ => None
  end.

Definition replaceFbjsModuleAliases (bundleType : bundleType) : table :=
  match bundleType with
  | FB_DEV | FB_PROD =>
      <["'react-dom'" := "'ReactDOM'"]> (<["'react'" := "'React'"]> ∅)
  | _ => ∅
  end.

Definition devOnlyModuleStub : string :=
  "'" +:+ resolve "./scripts/rollup/shims/rollup/DevOnlyStubShim.js" +:+ "'".

Definition replaceDevOnlyStubbedModules (bundleType : bundleType) : option table :=
  match bundleType with
  | UMD_DEV | NODE_DEV | FB_DEV | RN_DEV | RN_PROD => Some ∅
  | FB_PROD | UMD_PROD | NODE_PROD =>
      Some (fold_left (fun devOnlyModuleAliases devOnlyModule =>
              set_property devOnlyModule devOnlyModuleStub devOnlyModuleAliases)
            devOnlyFilesToStubOut ∅)
  | OtherBundleType _ => None
  end.

Definition replaceLegacyModuleAliases (bundleType : bundleType) : option table :=
  match bundleType with
  | UMD_DEV | UMD_PROD =>
      Some (fold_left (fun modulesAlias legacyModule =>
              let modulePath :=
                if includes_slash legacyModule then legacyModule
                else legacyModule +:+ "/index" in
              let resolvedPath := resolve ("./node_modules/" +:+ modulePath) in
              set_property ("'" +:+ legacyModule +:+ "'")
                ("'" +:+ resolvedPath +:+ "'") modulesAlias)
            legacyModules ∅)
  | NODE_DEV | NODE_PROD | FB_DEV | FB_PROD | RN_DEV | RN_PROD => Some ∅
  | OtherBundleType _ => None
  end.

Definition replaceBundleStubModules (bundleModulesToStub : value) : table :=
  let stubbedModules : table := ∅ in
  match bundleModulesToStub with
  | Array modules =>
      fold_left (fun stubbedModules module =>
          set_property ("'" +:+ module +:+ "'") devOnlyModuleStub stubbedModules)
        modules stubbedModules
  | _ => stubbedModules
  end.

(** [extractErrors && extractErrorCodes(errorCodeOpts)], the second
    argument [getAliases] passes to [createModuleMap]: the hook is built
    only when the caller's flag is set. *)
Definition extractErrorsArgument (extractErrors : bool)
  : M world exn (option (string -> M world exn unit)) :=
  if extractErrors
  then (hook <- extractErrorCodes errorCodeOpts ;; ret (Some hook))
  else ret None.

Definition getAliases (paths : list string) (bundleType : bundleType)
    (moduleType : moduleType) (extractErrors : bool) : M world exn table :=
  hook <- extractErrorsArgument extractErrors ;;
  moduleMap <- createModuleMap paths hook bundleType ;;
  ret (Object_assign moduleMap
         [ Some (getInternalModules moduleType);
           getNodeModules bundleType moduleType;
           getFbjsModuleAliases bundleType ]).

(** [featureFlags] is a path or is left out; the empty string is falsy. *)
Definition replaceFeatureFlags (featureFlags : option string) : table :=
  match featureFlags with
  | None => ∅
  | Some flags =>
      if String.eqb flags "" then ∅
      else <["'ReactFeatureFlags'" := "'" +:+ resolve flags +:+ "'"]> ∅
  end.

Definition getDefaultReplaceModules (bundleType : bundleType)
    (bundleModulesToStub : value) (featureFlags : option string)
  : M world exn table :=
  ret (Object_assign ∅
         [ Some (replaceFbjsModuleAliases bundleType);
           replaceDevOnlyStubbedModules bundleType;
           replaceLegacyModuleAliases bundleType;
           Some (replaceBundleStubModules bundleModulesToStub);
           Some (replaceFeatureFlags featureFlags) ]).

End Modules.

(** ** Reading the tables *)

(** What "later sources override earlier ones" means for one key: the
    entry of the last source that has one. *)
Definition later_wins (entries : list (option string)) : option string :=
  fold_left (fun found entry =>
               match entry with Some v => Some v | None => found end)
            entries None.

(** The entry of a source for a key; an absent source has none. *)
Definition entry_of (source : option table) (key : string) : option string :=
  match source with Some s => s !! key | None => None end.

(** What [getExternalModules] pushes after the caller's entries. *)
Definition appended (externals : list string) (bundleType : bundleType)
    (moduleType : moduleType) : list string :=
  let framework name := if decide (moduleType <> ISOMORPHIC) then [name] else [] in
  match bundleType with
  | UMD_DEV | UMD_PROD => framework "react"
  | NODE_DEV | NODE_PROD | RN_DEV | RN_PROD =>
      fbjsModules ++ ["object-assign"] ++ framework "react"
  | FB_DEV | FB_PROD =>
      fbjsModules ++ ["object-assign"; "ReactCurrentOwner"; "lowPriorityWarning"]
        ++ framework "React"
        ++ (if decide (moduleType <> ISOMORPHIC /\ "react-dom" ∈ externals)
            then ["ReactDOM"] else [])
  | OtherBundleType _ => []
  end.

(** The entry [createModuleMap] makes for one file. *)
Definition enterFile (cwd : string) (moduleMap : table) (file : string) : table :=
  set_property (Path.basename file ".js") (Path.resolve cwd file) moduleMap.

(** A table entry whose value is an absolute path. *)
Definition absolute_value (_ v : string) : Prop := Path.isAbsolute v = true.

(** A literal as the replacement tables hold them: text between two single
    quotes. *)
Fixpoint ends_with_quote (s : string) : bool :=
  match s with
  | EmptyString => false
  | String c EmptyString => Ascii.eqb c "'"
  | String _ r => ends_with_quote r
  end.

Definition is_quoted (s : string) : bool :=
  match s with
  | String c r => Ascii.eqb c "'" && ends_with_quote r
  | EmptyString => false
  end.

(** A table entry that rewrites a quoted literal to a quoted literal. *)
Definition quoted_entry (key v : string) : Prop :=
  is_quoted key = true /\ is_quoted v = true.

Section Visit.

Context {world exn : Type}.
Variable sync : string -> list string -> M world exn (list string).

Local Open Scope js_scope.

(** The collaborator calls of a scan, without the table: every pattern is
    listed in turn and the hook, when there is one, is run on each of its
    files; the result is the files in the order they were visited. *)
Fixpoint listFiles (paths : list string)
    (extractErrors : option (string -> M world exn unit)) : M world exn (list string) :=
  match paths with
  | [] => ret []
  | path :: rest =>
      files <- sync path exclude ;;
      forEach files (fun file (_ : unit) =>
        match extractErrors with
        | Some hook => hook file
        | None => ret tt
        end) tt ;;;
      more <- listFiles rest extractErrors ;;
      ret (files ++ more)
  end.

End Visit.

(** ** A sample build environment

    A working directory, a file tree listed by [glob] and an error-code
    registry that records the files it was run on; used to run the
    functions above on concrete inputs. *)
Module Sample.

Definition cwd : string := "/home/react".

(** The world is the list of files the error-code hook has visited. *)
Definition world : Type := list string.
Definition exn : Type := string.

Definition files : list string :=
  [ "src/isomorphic/React.js";
    "src/isomorphic/classic/element/ReactCurrentOwner.js";
    "src/shared/utils/lowPriorityWarning.js" ].

Definition sync (pattern : string) (ignore : list string)
  : M world exn (list string) :=
  fun w =>
    if String.eqb pattern "src/**/*.js" then Normal files w
    else if String.eqb pattern "missing/**/*.js" then Throw "ENOENT" w
    else Normal [] w.

Definition hook : string -> M world exn unit :=
  fun file w => Normal tt (w ++ [file]).

Definition extractErrorCodes (opts : errorCodeOptions)
  : M world exn (string -> M world exn unit) :=
  ret hook.

(** What scanning ["src/**/*.js"] enters in the module map. *)
Definition scanned : table :=
  <["React" := "/home/react/src/isomorphic/React.js"]>
  (<["ReactCurrentOwner" :=
       "/home/react/src/isomorphic/classic/element/ReactCurrentOwner.js"]>
  (<["lowPriorityWarning" :=
       "/home/react/src/shared/utils/lowPriorityWarning.js"]> ∅)).

Definition scanModules := scanModules cwd sync.
Definition listFiles := listFiles sync.
Definition createModuleMap := createModuleMap cwd sync.
Definition extractErrorsArgument := extractErrorsArgument extractErrorCodes.
Definition getAliases := getAliases cwd sync extractErrorCodes.
Definition getExternalModules := @getExternalModules world exn.
Definition getDefaultReplaceModules := @getDefaultReplaceModules world exn cwd.

End Sample.

(** * Properties *)

(** ** Running the functions *)

Example resolve_relative :
  Path.resolve "/home/react" "./packages/shared/reactProdInvariant.js"
  = "/home/react/packages/shared/reactProdInvariant.js".
Proof. reflexivity. Qed.

Example resolve_parent : Path.resolve "/home/react/" "../a//b/./c" = "/home/a/b/c".
Proof. reflexivity. Qed.

Example resolve_absolute : Path.resolve "/home/react" "/tmp/flags.js" = "/tmp/flags.js".
Proof. reflexivity. Qed.

Example basename_js :
  Path.basename "/home/react/src/ReactCurrentOwner.js" ".js" = "ReactCurrentOwner".
Proof. reflexivity. Qed.

Example basename_other : Path.basename "src/a.json" ".js" = "a.json".
Proof. reflexivity. Qed.

Example basename_ext_only : Path.basename "src/.js" ".js" = ".js".
Proof. reflexivity. Qed.

Example sample_module_map :
  Sample.createModuleMap ["src/**/*.js"] None NODE_DEV [] = Normal Sample.scanned [].
Proof. vm_compute. reflexivity. Qed.


(** ** Arrays and tables *)

Lemma fold_left_push (names array : list string) :
  fold_left push names array = array ++ names.
Proof.
  revert array. induction names as [|name names IH]; intros array; simpl.
  - by rewrite app_nil_r.
  - rewrite IH. unfold push. by rewrite <- app_assoc.
Qed.

Lemma indexOf_lower_bound (array : list string) (x : string) :
  (-1 <= indexOf array x)%Z.
Proof.
  induction array as [|y array IH]; simpl; [lia|].
  destruct (String.eqb y x); [lia|].
  destruct (Z.ltb_spec (indexOf array x) 0); lia.
Qed.

Lemma indexOf_found (array : list string) (x : string) :
  (indexOf array x >? -1)%Z = true <-> x ∈ array.
Proof.
  induction array as [|y array IH]; simpl.
  - split; [discriminate | by intros ?%elem_of_nil].
  - destruct (String.eqb_spec y x) as [->|Hne].
    + split; [intros _; left | reflexivity].
    + rewrite elem_of_cons, <- IH, !Z.gtb_lt.
      pose proof (indexOf_lower_bound array x) as Hlow.
      destruct (Z.ltb_spec (indexOf array x) 0) as [Hlt|Hge].
      * split; [lia | intros [->|Hin]; [congruence | lia]].
      * split; [intros _; right; lia | lia].
Qed.

Lemma set_property_insert (key v : string) (object : table) :
  key <> "__proto__" -> set_property key v object = <[key := v]> object.
Proof.
  intros Hne. unfold set_property.
  by destruct (String.eqb_spec key "__proto__").
Qed.

Lemma lookup_set_property (key v k : string) (object : table) :
  set_property key v object !! k
  = if decide (key = k /\ key <> "__proto__") then Some v else object !! k.
Proof.
  unfold set_property. destruct (String.eqb_spec key "__proto__") as [->|Hne].
  - case_decide as H; [by destruct H | done].
  - rewrite lookup_insert.
    destruct (decide (key = k)) as [->|Hk];
      destruct (decide (_ /\ _)) as [H|H]; try done;
      [exfalso; by apply H | by destruct H].
Qed.

Lemma lookup_assign_source (target : table) (source : option table) (k : string) :
  assign_source target source !! k
  = match entry_of source k with Some v => Some v | None => target !! k end.
Proof.
  destruct source as [s|]; simpl; [|done].
  rewrite lookup_union. destruct (s !! k), (target !! k); done.
Qed.

Lemma lookup_Object_assign (sources : list (option table)) (target : table) (k : string) :
  Object_assign target sources !! k
  = fold_left (fun found entry =>
                 match entry with Some v => Some v | None => found end)
              (map (fun s => entry_of s k) sources) (target !! k).
Proof.
  unfold Object_assign. revert target.
  induction sources as [|s sources IH]; intros target; simpl; [done|].
  by rewrite IH, lookup_assign_source.
Qed.

(** ** Completions *)

Section Completions.
Context {world exn : Type}.

Lemma bind_Normal {A B} (m : M world exn A) (k : A -> M world exn B) w a w' :
  m w = Normal a w' -> bind m k w = k a w'.
Proof. unfold bind. by intros ->. Qed.

Lemma bind_Throw {A B} (m : M world exn A) (k : A -> M world exn B) w e w' :
  m w = Throw e w' -> bind m k w = Throw e w'.
Proof. unfold bind. by intros ->. Qed.

End Completions.

(** ** The external modules *)

Section ExternalModules.
Context {world exn : Type}.

Lemma react_dom_not_pushed (externals pushed : list string) :
  "react-dom" ∉ pushed ->
  "react-dom" ∈ externals ++ pushed <-> "react-dom" ∈ externals.
Proof. intros Hnot. rewrite elem_of_app. tauto. Qed.

Lemma getExternalModules_run externals bundleType moduleType (w : world) :
  getExternalModules (exn := exn) externals bundleType moduleType w
  = Normal (externals ++ appended externals bundleType moduleType) w.
Proof.
  unfold getExternalModules, appended, ret.
  destruct bundleType; rewrite ?fold_left_push; unfold push;
    destruct (decide (moduleType <> ISOMORPHIC)) as [Hrole|Hrole];
    try (f_equal; rewrite <- ?app_assoc, ?app_nil_r; reflexivity).
  all: rewrite <- !app_assoc; simpl.
  all: try match goal with
       | |- context [indexOf (?base ++ ?pushed) "react-dom"] =>
           assert (Hin : (indexOf (base ++ pushed) "react-dom" >? -1)%Z = true
                         <-> "react-dom" ∈ base)
             by (rewrite indexOf_found; apply react_dom_not_pushed;
                 apply (bool_decide_unpack _); vm_compute; exact I);
           destruct (indexOf (base ++ pushed) "react-dom" >? -1)%Z
       end.
  all: case_decide as Hd; f_equal; rewrite <- ?app_assoc; simpl; try reflexivity.
  all: try (exfalso; apply Hd; split; [done | by apply Hin]).
  all: try (destruct Hd as [_ Hd]; apply Hin in Hd; discriminate).
  all: by destruct Hd.
Qed.

End ExternalModules.

Lemma appended_no_ignored_view externals bundleType moduleType :
  ("View" ∉ appended externals bundleType moduleType)
  /\ ("ReactFeatureFlags" ∉ appended externals bundleType moduleType).
Proof.
  unfold appended.
  destruct bundleType; repeat case_decide; simpl;
    split; apply (bool_decide_unpack _); vm_compute; exact I.
Qed.

(** C1. Whatever the bundle type and the module type, [getExternalModules]
    returns the caller's list, entry for entry and in the same order,
    followed by the names it pushed: nothing of the caller's list is
    removed, moved or changed.  The call never throws and leaves the world
    as it was. *)
Theorem getExternalModules_keeps_prefix {world exn : Type}
    (externals : list string) (bundleType : bundleType) (moduleType : moduleType)
    (w : world) :
  exists pushed : list string,
    getExternalModules (exn := exn) externals bundleType moduleType w
    = Normal (externals ++ pushed) w.
Proof.
  exists (appended externals bundleType moduleType).
  apply getExternalModules_run.
Qed.

(** C2, as the code has it. For [NODE_DEV] and [ISOMORPHIC] the result is the
    caller's list, then the names of [fbjsModules] in order, then
    ['object-assign']; [fbjsModules] has sixteen names, and ['react'] is not
    among the names pushed. *)
Theorem getExternalModules_node_dev_isomorphic {world exn : Type}
    (externals : list string) (w : world) :
  getExternalModules (exn := exn) externals NODE_DEV ISOMORPHIC w
  = Normal (externals ++ fbjsModules ++ ["object-assign"]) w
  /\ length fbjsModules = 16
  /\ "react" ∉ fbjsModules ++ ["object-assign"].
Proof.
  split; [|split].
  - rewrite getExternalModules_run. reflexivity.
  - reflexivity.
  - apply (bool_decide_unpack _). vm_compute. exact I.
Qed.

(** C2, as stated, fails: on the empty list the names pushed before
    ['object-assign'] are not fifteen. *)
Lemma getExternalModules_node_dev_not_fifteen :
  ~ exists utilities : list string,
      length utilities = 15
      /\ Sample.getExternalModules [] NODE_DEV ISOMORPHIC []
         = Normal ([] ++ utilities ++ ["object-assign"]) [].
Proof.
  intros (utilities & Hlen & Hrun).
  unfold Sample.getExternalModules in Hrun.
  rewrite getExternalModules_run in Hrun.
  injection Hrun as Heq. apply (f_equal length) in Heq.
  rewrite !length_app, Hlen in Heq. simpl in Heq. lia.
Qed.

(** Membership of a given name in a given list of names, settled by
    running the decision procedure. *)
Ltac settle_elem x l :=
  first [ assert (x ∈ l) by (apply (bool_decide_unpack _); vm_compute; exact I)
        | assert (x ∉ l) by (apply (bool_decide_unpack _); vm_compute; exact I) ].

(** C9, as the code has it. The ignored names are two constant lists, one
    per platform, whatever the bundle type: [ignoreReactNativeModules] has
    the single name ['View'] and [ignoreFBModules] has five names.
    [getExternalModules] never pushes ['View'] nor ['ReactFeatureFlags'];
    the four other names of [ignoreFBModules] it pushes for [FB_DEV] and
    [FB_PROD] and for no other bundle type: ['ReactCurrentOwner'] and
    ['lowPriorityWarning'] always, ['React'] when the module type is not
    [ISOMORPHIC], and ['ReactDOM'] when moreover the caller's list has
    ['react-dom']. *)
Theorem ignored_modules_and_externals {world exn : Type}
    (externals : list string) (bundleType : bundleType) (moduleType : moduleType)
    (w : world) :
  ignoreFBModules
  = ["React"; "ReactDOM"; "ReactFeatureFlags"; "ReactCurrentOwner";
     "lowPriorityWarning"]
  /\ ignoreReactNativeModules = ["View"]
  /\ exists pushed : list string,
       getExternalModules (exn := exn) externals bundleType moduleType w
       = Normal (externals ++ pushed) w
       /\ ("View" ∉ pushed)
       /\ ("ReactFeatureFlags" ∉ pushed)
       /\ ("ReactCurrentOwner" ∈ pushed
           <-> bundleType = FB_DEV \/ bundleType = FB_PROD)
       /\ ("lowPriorityWarning" ∈ pushed
           <-> bundleType = FB_DEV \/ bundleType = FB_PROD)
       /\ ("React" ∈ pushed
           <-> (bundleType = FB_DEV \/ bundleType = FB_PROD)
               /\ moduleType <> ISOMORPHIC)
       /\ ("ReactDOM" ∈ pushed
           <-> (bundleType = FB_DEV \/ bundleType = FB_PROD)
               /\ moduleType <> ISOMORPHIC /\ "react-dom" ∈ externals).
Proof.
  split; [reflexivity | split; [reflexivity|]].
  exists (appended externals bundleType moduleType).
  split; [apply getExternalModules_run|].
  split; [apply appended_no_ignored_view|].
  split; [apply appended_no_ignored_view|].
  unfold appended. destruct bundleType; repeat case_decide; simpl;
    repeat match goal with
           | |- _ /\ _ => split
           | |- ?x ∈ ?l <-> _ =>
               settle_elem x l; simpl; intuition (try congruence; try discriminate)
           end.
Qed.

(** C9, as stated, fails on both counts: neither list, nor the two
    together, has exactly two names, and the ignored names are not kept out
    of the result of [getExternalModules]: for [FB_DEV], [RENDERER] and the
    list [["react-dom"]] it pushes four of the five names of
    [ignoreFBModules]. *)
Lemma ignored_modules_not_two_and_pushed :
  length ignoreFBModules <> 2
  /\ length ignoreReactNativeModules <> 2
  /\ length (ignoreFBModules ++ ignoreReactNativeModules) <> 2
  /\ Sample.getExternalModules ["react-dom"] FB_DEV RENDERER []
     = Normal (["react-dom"] ++ fbjsModules
               ++ ["object-assign"; "ReactCurrentOwner"; "lowPriorityWarning";
                   "React"; "ReactDOM"]) []
  /\ Forall (fun name => name ∈ ignoreFBModules)
            ["ReactCurrentOwner"; "lowPriorityWarning"; "React"; "ReactDOM"].
Proof.
  split; [discriminate | split; [discriminate | split; [discriminate|]]].
  split; [reflexivity|].
  repeat (apply Forall_cons; split); [.. | apply Forall_nil_2];
    apply (bool_decide_unpack _); vm_compute; exact I.
Qed.

(** ** Paths *)

Lemma split_not_nil (s : string) : Path.split s <> [].
Proof.
  induction s as [|c r IH]; simpl; [done|].
  destruct (Ascii.eqb c "/"); [done|]. by destruct (Path.split r).
Qed.

Lemma split_app (s1 s2 : string) :
  Path.split (s1 +:+ "/" +:+ s2) = Path.split s1 ++ Path.split s2.
Proof.
  induction s1 as [|c r IH]; [reflexivity|].
  change (String c r +:+ "/" +:+ s2) with (String c (r +:+ "/" +:+ s2)).
  simpl. rewrite IH. destruct (Ascii.eqb c "/"); [reflexivity|].
  pose proof (split_not_nil r). by destruct (Path.split r).
Qed.

Lemma append_assoc (s1 s2 s3 : string) :
  (s1 +:+ s2) +:+ s3 = s1 +:+ (s2 +:+ s3).
Proof.
  induction s1 as [|c s1 IH]; [reflexivity|].
  change (String c ((s1 +:+ s2) +:+ s3) = String c (s1 +:+ (s2 +:+ s3))).
  by rewrite IH.
Qed.

Lemma join_snoc (dirs : list string) (file : string) :
  dirs <> [] -> Path.join (dirs ++ [file]) = Path.join dirs +:+ "/" +:+ file.
Proof.
  induction dirs as [|d dirs IH]; [done|]. intros _.
  destruct dirs as [|d' dirs]; [reflexivity|].
  change (Path.join ((d :: d' :: dirs) ++ [file]))
    with (d +:+ "/" +:+ Path.join ((d' :: dirs) ++ [file])).
  rewrite IH by done.
  change (Path.join (d :: d' :: dirs)) with (d +:+ "/" +:+ Path.join (d' :: dirs)).
  by rewrite !append_assoc.
Qed.

(** A relative path that, from any directory, enters the directories [dirs]
    (innermost first) and ends on the plain name [file] resolves to a path
    whose last segment is [file]. *)
Lemma resolve_last_segment (cwd p file : string) (dirs : list string) :
  Path.isAbsolute p = false ->
  Path.split file = [file] ->
  (forall stack, fold_left Path.step (Path.split p) stack = file :: dirs ++ stack) ->
  last (Path.split (Path.resolve cwd p)) = Some file.
Proof.
  intros Hrel Hfile Hsteps. unfold Path.resolve, Path.normalize.
  rewrite Hrel, split_app, fold_left_app, Hsteps. simpl rev.
  set (stack := rev (dirs ++ _)).
  destruct (decide (stack = [])) as [->|Hne].
  - simpl. change ("" +:+ file) with file. by rewrite Hfile.
  - rewrite join_snoc by done.
    change ("/" +:+ ?x) with (String "/" x). simpl Path.split.
    rewrite split_app, Hfile.
    change ("" :: ?l ++ [file]) with (("" :: l) ++ [file]).
    apply last_snoc.
Qed.

Lemma resolve_distinct_files (cwd p q file file' : string) (dirs dirs' : list string) :
  Path.isAbsolute p = false -> Path.isAbsolute q = false ->
  Path.split file = [file] -> Path.split file' = [file'] ->
  (forall stack, fold_left Path.step (Path.split p) stack = file :: dirs ++ stack) ->
  (forall stack, fold_left Path.step (Path.split q) stack = file' :: dirs' ++ stack) ->
  file <> file' ->
  Path.resolve cwd p <> Path.resolve cwd q.
Proof.
  intros Hp Hq Hf Hf' Hsp Hsq Hne Heq.
  pose proof (resolve_last_segment cwd p file dirs Hp Hf Hsp) as H1.
  pose proof (resolve_last_segment cwd q file' dirs' Hq Hf' Hsq) as H2.
  rewrite Heq in H1. congruence.
Qed.

(** ** The alias tables *)

Section Aliases.
Context {world exn : Type}.
Variable cwd : string.
Variable sync : string -> list string -> M world exn (list string).
Variable extractErrorCodes :
  errorCodeOptions -> M world exn (string -> M world exn unit).

Lemma object_assign_paths_differ :
  resolve cwd "./node_modules/object-assign/index.js"
  <> resolve cwd "./scripts/rollup/shims/rollup/assign.js".
Proof.
  apply (resolve_distinct_files cwd _ _ "index.js" "assign.js"
           ["object-assign"; "node_modules"]
           ["rollup"; "shims"; "rollup"; "scripts"]);
    solve [reflexivity | discriminate | intros stack; reflexivity].
Qed.

Lemma getNodeModules_object_assign bundleType moduleType :
  bundleType = UMD_DEV \/ bundleType = UMD_PROD ->
  entry_of (getNodeModules cwd bundleType moduleType) "object-assign"
  = Some (match moduleType with
          | ISOMORPHIC => resolve cwd "./node_modules/object-assign/index.js"
          | _ => resolve cwd "./scripts/rollup/shims/rollup/assign.js"
          end).
Proof. intros [-> | ->]; destruct moduleType; reflexivity. Qed.

Lemma getFbjsModuleAliases_object_assign bundleType :
  entry_of (getFbjsModuleAliases cwd bundleType) "object-assign" = None.
Proof. destruct bundleType; reflexivity. Qed.

Lemma createModuleMap_run paths hook bundleType (w : world) scanned w' :
  scanModules cwd sync paths hook w = Normal scanned w' ->
  createModuleMap cwd sync paths hook bundleType w
  = Normal (if decide (bundleType = FB_DEV \/ bundleType = FB_PROD)
            then delete "lowPriorityWarning" (delete "ReactCurrentOwner" scanned)
            else scanned) w'.
Proof.
  intros Hscan. unfold createModuleMap.
  rewrite (bind_Normal _ _ _ _ _ Hscan). by case_decide.
Qed.

Lemma createModuleMap_throws paths hook bundleType (w : world) e w' :
  scanModules cwd sync paths hook w = Throw e w' ->
  createModuleMap cwd sync paths hook bundleType w = Throw e w'.
Proof. intros Hscan. unfold createModuleMap. by apply bind_Throw. Qed.

Lemma getAliases_run paths bundleType moduleType extractErrors
    (w : world) hook w0 moduleMap w' :
  extractErrorsArgument extractErrorCodes extractErrors w = Normal hook w0 ->
  createModuleMap cwd sync paths hook bundleType w0 = Normal moduleMap w' ->
  getAliases cwd sync extractErrorCodes paths bundleType moduleType extractErrors w
  = Normal (Object_assign moduleMap
              [ Some (getInternalModules cwd moduleType);
                getNodeModules cwd bundleType moduleType;
                getFbjsModuleAliases cwd bundleType ]) w'.
Proof.
  intros Hhook Hmap. unfold getAliases.
  rewrite (bind_Normal _ _ _ _ _ Hhook), (bind_Normal _ _ _ _ _ Hmap).
  reflexivity.
Qed.

Lemma getAliases_throws paths bundleType moduleType extractErrors
    (w : world) hook w0 e w' :
  extractErrorsArgument extractErrorCodes extractErrors w = Normal hook w0 ->
  createModuleMap cwd sync paths hook bundleType w0 = Throw e w' ->
  getAliases cwd sync extractErrorCodes paths bundleType moduleType extractErrors w
  = Throw e w'.
Proof.
  intros Hhook Hmap. unfold getAliases.
  rewrite (bind_Normal _ _ _ _ _ Hhook). by apply bind_Throw.
Qed.

Lemma getInternalModules_dom moduleType :
  dom (getInternalModules cwd moduleType)
  = if decide (moduleType = RENDERER)
    then {[ "reactProdInvariant"; "react-reconciler" ]}
    else ({[ "reactProdInvariant" ]} : gset string).
Proof.
  unfold getInternalModules. case_decide.
  - rewrite set_property_insert by discriminate.
    rewrite !dom_insert_L, dom_empty_L. set_solver.
  - rewrite !dom_insert_L, dom_empty_L. set_solver.
Qed.

End Aliases.

Lemma later_wins_cons (entry : option string) (entries : list (option string)) :
  later_wins (entry :: entries)
  = fold_left (fun found entry =>
                 match entry with Some v => Some v | None => found end)
              entries entry.
Proof. unfold later_wins. simpl. by destruct entry. Qed.

(** C8. Whenever the scan returns, [getAliases] returns, and its table is
    the merge, later sources winning, of (a) the table of
    [createModuleMap], (b) the internal modules, (c) the node modules of the
    bundle type and (d) its fbjs aliases, in that order.  The internal
    modules always hold [reactProdInvariant], and hold ['react-reconciler']
    exactly when the module type is [RENDERER]. *)
Theorem getAliases_merges_four_sources {world exn : Type} (cwd : string)
    (sync : string -> list string -> M world exn (list string))
    (extractErrorCodes : errorCodeOptions -> M world exn (string -> M world exn unit))
    (paths : list string) (bundleType : bundleType) (moduleType : moduleType)
    (extractErrors : bool) (w : world) hook w0 moduleMap w' :
  extractErrorsArgument extractErrorCodes extractErrors w = Normal hook w0 ->
  createModuleMap cwd sync paths hook bundleType w0 = Normal moduleMap w' ->
  exists aliases : table,
    getAliases cwd sync extractErrorCodes paths bundleType moduleType extractErrors w
    = Normal aliases w'
    /\ (forall key : string,
          aliases !! key
          = later_wins [ moduleMap !! key;
                         getInternalModules cwd moduleType !! key;
                         entry_of (getNodeModules cwd bundleType moduleType) key;
                         entry_of (getFbjsModuleAliases cwd bundleType) key ])
    /\ dom (getInternalModules cwd moduleType)
       = (if decide (moduleType = RENDERER)
          then {[ "reactProdInvariant"; "react-reconciler" ]}
          else {[ "reactProdInvariant" ]}).
Proof.
  intros Hhook Hmap. eexists. split; [|split].
  - by apply getAliases_run with (hook := hook) (w0 := w0).
  - intros key. by rewrite lookup_Object_assign, later_wins_cons.
  - apply getInternalModules_dom.
Qed.

Lemma getAliases_merges_four_sources_witness :
  Sample.extractErrorsArgument true [] = Normal (Some Sample.hook) []
  /\ Sample.createModuleMap ["src/**/*.js"] (Some Sample.hook) UMD_DEV []
     = Normal Sample.scanned Sample.files
  /\ exists aliases : table,
       Sample.getAliases ["src/**/*.js"] UMD_DEV RENDERER true []
       = Normal aliases Sample.files
       /\ aliases !! "react-reconciler"
          = Some "/home/react/packages/react-reconciler/index.js".
Proof.
  split; [reflexivity | split; [vm_compute; reflexivity|]].
  destruct (getAliases_merges_four_sources Sample.cwd Sample.sync
              Sample.extractErrorCodes ["src/**/*.js"] UMD_DEV RENDERER true []
              (Some Sample.hook) [] Sample.scanned Sample.files)
    as (aliases & Hrun & Hkeys & _);
    [reflexivity | vm_compute; reflexivity |].
  exists aliases. split; [exact Hrun|].
  rewrite Hkeys. reflexivity.
Defined.

(** C5. For [UMD_DEV] and [UMD_PROD], whenever the scan returns, the table
    of [getAliases] maps ['object-assign'] to the resolved
    [node_modules/object-assign/index.js] when the module type is
    [ISOMORPHIC] and to the resolved shim [shims/rollup/assign.js] when it
    is [RENDERER] (or anything but [ISOMORPHIC]); the two paths differ in
    every working directory. *)
Theorem getAliases_object_assign {world exn : Type} (cwd : string)
    (sync : string -> list string -> M world exn (list string))
    (extractErrorCodes : errorCodeOptions -> M world exn (string -> M world exn unit))
    (paths : list string) (bundleType : bundleType) (moduleType : moduleType)
    (extractErrors : bool) (w : world) hook w0 moduleMap w' :
  bundleType = UMD_DEV \/ bundleType = UMD_PROD ->
  extractErrorsArgument extractErrorCodes extractErrors w = Normal hook w0 ->
  createModuleMap cwd sync paths hook bundleType w0 = Normal moduleMap w' ->
  exists aliases : table,
    getAliases cwd sync extractErrorCodes paths bundleType moduleType extractErrors w
    = Normal aliases w'
    /\ aliases !! "object-assign"
       = Some (match moduleType with
               | ISOMORPHIC => resolve cwd "./node_modules/object-assign/index.js"
               | _ => resolve cwd "./scripts/rollup/shims/rollup/assign.js"
               end)
    /\ resolve cwd "./node_modules/object-assign/index.js"
       <> resolve cwd "./scripts/rollup/shims/rollup/assign.js".
Proof.
  intros Humd Hhook Hmap. eexists. split; [|split].
  - by apply getAliases_run with (hook := hook) (w0 := w0).
  - rewrite lookup_Object_assign. simpl.
    rewrite getFbjsModuleAliases_object_assign.
    by rewrite getNodeModules_object_assign.
  - apply object_assign_paths_differ.
Qed.

Lemma getAliases_object_assign_witness :
  (UMD_PROD = UMD_DEV \/ UMD_PROD = UMD_PROD)
  /\ Sample.extractErrorsArgument false [] = Normal None []
  /\ Sample.createModuleMap ["src/**/*.js"] None UMD_PROD [] = Normal Sample.scanned []
  /\ exists aliases : table,
       Sample.getAliases ["src/**/*.js"] UMD_PROD RENDERER false []
       = Normal aliases []
       /\ aliases !! "object-assign"
          = Some "/home/react/scripts/rollup/shims/rollup/assign.js"
       /\ resolve Sample.cwd "./node_modules/object-assign/index.js"
          <> resolve Sample.cwd "./scripts/rollup/shims/rollup/assign.js".
Proof.
  split; [by right | split; [reflexivity | split; [vm_compute; reflexivity|]]].
  apply (getAliases_object_assign Sample.cwd Sample.sync Sample.extractErrorCodes
           ["src/**/*.js"] UMD_PROD RENDERER false [] None [] Sample.scanned []);
    [by right | reflexivity | vm_compute; reflexivity].
Defined.

(** C7. Whenever the scan returns, [createModuleMap] returns.  For [FB_DEV]
    and [FB_PROD] its table has neither [ReactCurrentOwner] nor
    [lowPriorityWarning], whatever files were scanned, and agrees with the
    scanned table on every other name; for every other bundle type it is
    the scanned table, nothing deleted. *)
Theorem createModuleMap_reserved_names {world exn : Type} (cwd : string)
    (sync : string -> list string -> M world exn (list string))
    (paths : list string) (hook : option (string -> M world exn unit))
    (bundleType : bundleType) (w : world) scanned w' :
  scanModules cwd sync paths hook w = Normal scanned w' ->
  exists moduleMap : table,
    createModuleMap cwd sync paths hook bundleType w = Normal moduleMap w'
    /\ (bundleType = FB_DEV \/ bundleType = FB_PROD ->
        moduleMap !! "ReactCurrentOwner" = None
        /\ moduleMap !! "lowPriorityWarning" = None
        /\ forall name, name <> "ReactCurrentOwner" -> name <> "lowPriorityWarning" ->
                        moduleMap !! name = scanned !! name)
    /\ (~ (bundleType = FB_DEV \/ bundleType = FB_PROD) -> moduleMap = scanned).
Proof.
  intros Hscan. eexists. split; [by apply createModuleMap_run|].
  split; intros Hfb; case_decide; try done.
  split; [|split].
  - rewrite lookup_delete_ne by discriminate. apply lookup_delete_eq.
  - apply lookup_delete_eq.
  - intros name Hn1 Hn2. by rewrite !lookup_delete_ne.
Qed.

Lemma createModuleMap_reserved_names_witness :
  Sample.scanModules ["src/**/*.js"] None [] = Normal Sample.scanned []
  /\ Sample.scanned !! "ReactCurrentOwner"
     = Some "/home/react/src/isomorphic/classic/element/ReactCurrentOwner.js"
  /\ exists moduleMap : table,
       Sample.createModuleMap ["src/**/*.js"] None FB_PROD [] = Normal moduleMap []
       /\ moduleMap !! "ReactCurrentOwner" = None
       /\ moduleMap !! "lowPriorityWarning" = None
       /\ moduleMap !! "React" = Some "/home/react/src/isomorphic/React.js".
Proof.
  split; [vm_compute; reflexivity | split; [reflexivity|]].
  destruct (createModuleMap_reserved_names Sample.cwd Sample.sync
              ["src/**/*.js"] None FB_PROD [] Sample.scanned [])
    as (moduleMap & Hrun & Hfb & _); [vm_compute; reflexivity|].
  destruct Hfb as (Howner & Hwarning & Hother); [by right|].
  exists moduleMap. repeat split; try assumption.
  rewrite Hother by discriminate. reflexivity.
Defined.

(** ** The replacement tables *)

Section Replacements.
Context {world exn : Type}.
Variable cwd : string.

Lemma replaceBundleStubModules_not_array (v : value) :
  isArray v = false -> replaceBundleStubModules cwd v = ∅.
Proof. by destruct v. Qed.

Lemma stubbed_fold_values (modules : list string) (stubbedModules : table) :
  (forall key v, stubbedModules !! key = Some v -> v = devOnlyModuleStub cwd) ->
  forall key v,
    fold_left (fun stubbedModules module =>
                 set_property ("'" +:+ module +:+ "'") (devOnlyModuleStub cwd)
                   stubbedModules)
              modules stubbedModules !! key = Some v ->
    v = devOnlyModuleStub cwd.
Proof.
  revert stubbedModules.
  induction modules as [|module modules IH]; intros acc Hacc key v; simpl.
  - apply Hacc.
  - apply IH. intros key' v'. rewrite lookup_set_property.
    case_decide; [congruence | apply Hacc].
Qed.

(** Every entry of the caller's stubs has the one stub as its value. *)
Lemma replaceBundleStubModules_values (stubs : value) (key v : string) :
  replaceBundleStubModules cwd stubs !! key = Some v -> v = devOnlyModuleStub cwd.
Proof.
  destruct stubs; simpl; try (rewrite lookup_empty; discriminate).
  apply stubbed_fold_values. intros k x. rewrite lookup_empty. discriminate.
Qed.

Lemma replaceFeatureFlags_other (featureFlags : option string) (key : string) :
  key <> "'ReactFeatureFlags'" -> replaceFeatureFlags cwd featureFlags !! key = None.
Proof.
  intros Hkey. destruct featureFlags as [flags|]; simpl; [|done].
  destruct (String.eqb flags ""); [done|]. by rewrite lookup_insert_ne.
Qed.

Lemma getDefaultReplaceModules_run bundleType stubs featureFlags (w : world) :
  getDefaultReplaceModules (exn := exn) cwd bundleType stubs featureFlags w
  = Normal (Object_assign ∅
              [ Some (replaceFbjsModuleAliases bundleType);
                replaceDevOnlyStubbedModules cwd bundleType;
                replaceLegacyModuleAliases cwd bundleType;
                Some (replaceBundleStubModules cwd stubs);
                Some (replaceFeatureFlags cwd featureFlags) ]) w.
Proof. reflexivity. Qed.

(** In a production bundle other than [RN_PROD], a dev-only name keeps the
    stub whatever the later sources add. *)
Lemma dev_only_name_stubbed bundleType stubs featureFlags (name : string) :
  bundleType = UMD_PROD \/ bundleType = NODE_PROD \/ bundleType = FB_PROD ->
  name ∈ devOnlyFilesToStubOut ->
  Object_assign ∅
    [ Some (replaceFbjsModuleAliases bundleType);
      replaceDevOnlyStubbedModules cwd bundleType;
      replaceLegacyModuleAliases cwd bundleType;
      Some (replaceBundleStubModules cwd stubs);
      Some (replaceFeatureFlags cwd featureFlags) ] !! name
  = Some (devOnlyModuleStub cwd).
Proof.
  intros Hprod Hname. rewrite lookup_Object_assign. simpl.
  assert (Hflags : replaceFeatureFlags cwd featureFlags !! name = None).
  { apply replaceFeatureFlags_other. intros ->. revert Hname.
    apply (bool_decide_unpack _). vm_compute. exact I. }
  rewrite Hflags.
  destruct (replaceBundleStubModules cwd stubs !! name) as [v|] eqn:Hstub.
  { f_equal. by apply replaceBundleStubModules_values with stubs name. }
  unfold devOnlyFilesToStubOut in Hname.
  repeat (apply elem_of_cons in Hname as [-> | Hname]);
    [ .. | by apply elem_of_nil in Hname ];
    destruct Hprod as [-> | [-> | ->]]; reflexivity.
Qed.

End Replacements.

(** C6. For [UMD_PROD], [NODE_PROD] and [FB_PROD], whatever the caller's
    stubs and feature flags, the table of [getDefaultReplaceModules] has
    each of the four dev-only names as a key, all with the one value
    [devOnlyModuleStub]; for the development bundle types and for [RN_PROD],
    [replaceDevOnlyStubbedModules] is the empty table. *)
Theorem dev_only_modules_stubbed_in_production {world exn : Type} (cwd : string) :
  Forall (fun bundleType =>
            forall (stubs : value) (featureFlags : option string) (w : world),
            exists replacements : table,
              getDefaultReplaceModules (exn := exn) cwd bundleType stubs featureFlags w
              = Normal replacements w
              /\ Forall (fun name => replacements !! name = Some (devOnlyModuleStub cwd))
                        devOnlyFilesToStubOut)
         [UMD_PROD; NODE_PROD; FB_PROD]
  /\ length devOnlyFilesToStubOut = 4
  /\ Forall (fun bundleType => replaceDevOnlyStubbedModules cwd bundleType = Some ∅)
            [UMD_DEV; NODE_DEV; FB_DEV; RN_DEV; RN_PROD].
Proof.
  split; [|split; [reflexivity | by repeat constructor]].
  repeat (apply Forall_cons; split); [.. | apply Forall_nil_2];
    intros stubs featureFlags w; eexists;
    (split; [apply getDefaultReplaceModules_run|]);
    apply Forall_forall; intros name Hname;
    apply dev_only_name_stubbed; auto.
Qed.

(** C3, as the code has it. For [UMD_PROD] with no feature flags and the
    stub list [["ReactDebugTools"]] (the bare name), the table of
    [getDefaultReplaceModules] holds the redirect of each of the four
    legacy modules, the four dev-only stubs and the key ['ReactDebugTools']
    with the stub as value, and has no ['ReactFeatureFlags'] key.  The key
    of a stub is the caller's name put between quotes: for the list
    [["'ReactDebugTools'"]] the key is [''ReactDebugTools''], and
    ['ReactDebugTools'] is not a key. *)
Theorem getDefaultReplaceModules_umd_prod_stub {world exn : Type} (cwd : string)
    (w : world) :
  (exists replacements : table,
     getDefaultReplaceModules (exn := exn) cwd UMD_PROD (Array ["ReactDebugTools"]) None w
     = Normal replacements w
     /\ replacements !! "'create-react-class'"
        = Some ("'" +:+ resolve cwd "./node_modules/create-react-class/index" +:+ "'")
     /\ replacements !! "'create-react-class/factory'"
        = Some ("'" +:+ resolve cwd "./node_modules/create-react-class/factory" +:+ "'")
     /\ replacements !! "'prop-types'"
        = Some ("'" +:+ resolve cwd "./node_modules/prop-types/index" +:+ "'")
     /\ replacements !! "'prop-types/checkPropTypes'"
        = Some ("'" +:+ resolve cwd "./node_modules/prop-types/checkPropTypes" +:+ "'")
     /\ Forall (fun name => replacements !! name = Some (devOnlyModuleStub cwd))
               devOnlyFilesToStubOut
     /\ replacements !! "'ReactDebugTools'" = Some (devOnlyModuleStub cwd)
     /\ replacements !! "'ReactFeatureFlags'" = None)
  /\ (exists replacements : table,
        getDefaultReplaceModules (exn := exn) cwd UMD_PROD
          (Array ["'ReactDebugTools'"]) None w
        = Normal replacements w
        /\ replacements !! "''ReactDebugTools''" = Some (devOnlyModuleStub cwd)
        /\ replacements !! "'ReactDebugTools'" = None).
Proof.
  split; eexists; (split; [apply getDefaultReplaceModules_run|]).
  - repeat split; try reflexivity. by repeat constructor.
  - split; reflexivity.
Qed.

(** C3, as stated, fails: with the stub list [["'ReactDebugTools'"]] the
    table has no key ['ReactDebugTools']. *)
Lemma getDefaultReplaceModules_quoted_stub_missing :
  exists replacements : table,
    Sample.getDefaultReplaceModules UMD_PROD (Array ["'ReactDebugTools'"]) None []
    = Normal replacements []
    /\ replacements !! "'ReactDebugTools'" = None
    /\ replacements !! "'ReactDebugTools'" <> Some (devOnlyModuleStub Sample.cwd).
Proof.
  eexists. split; [apply getDefaultReplaceModules_run|].
  split; [reflexivity | discriminate].
Qed.

(** C10. When the caller's stub list is not an array (left out, [null], or
    any other value), [replaceBundleStubModules] is the empty table and
    [getDefaultReplaceModules] returns, without throwing, the merge of the
    four other sources. *)
Theorem getDefaultReplaceModules_without_stub_array {world exn : Type} (cwd : string)
    (bundleType : bundleType) (stubs : value) (featureFlags : option string)
    (w : world) :
  isArray stubs = false ->
  replaceBundleStubModules cwd stubs = ∅
  /\ getDefaultReplaceModules (exn := exn) cwd bundleType stubs featureFlags w
     = Normal (Object_assign ∅
                 [ Some (replaceFbjsModuleAliases bundleType);
                   replaceDevOnlyStubbedModules cwd bundleType;
                   replaceLegacyModuleAliases cwd bundleType;
                   Some (replaceFeatureFlags cwd featureFlags) ]) w.
Proof.
  intros Hstubs. split; [by apply replaceBundleStubModules_not_array|].
  rewrite getDefaultReplaceModules_run.
  rewrite replaceBundleStubModules_not_array by done.
  unfold Object_assign. simpl. by rewrite (left_id_L ∅ (∪)).
Qed.

Lemma getDefaultReplaceModules_without_stub_array_witness :
  isArray Null = false
  /\ replaceBundleStubModules Sample.cwd Null = ∅
  /\ Sample.getDefaultReplaceModules FB_DEV Null (Some "flags.js") []
     = Normal (Object_assign ∅
                 [ Some (replaceFbjsModuleAliases FB_DEV);
                   replaceDevOnlyStubbedModules Sample.cwd FB_DEV;
                   replaceLegacyModuleAliases Sample.cwd FB_DEV;
                   Some (replaceFeatureFlags Sample.cwd (Some "flags.js")) ]) [].
Proof.
  split; [reflexivity|].
  apply (getDefaultReplaceModules_without_stub_array Sample.cwd FB_DEV Null
           (Some "flags.js") []).
  reflexivity.
Defined.

(** C4, as the code has it. For a bundle type that is none of the eight
    registered ones nothing throws on its account: [getExternalModules]
    returns the caller's list as it is; the tables chosen by a [switch]
    without [default] are [undefined], and that of
    [replaceFbjsModuleAliases] is empty; [getDefaultReplaceModules] returns
    the caller's stubs and the feature flags only; [getAliases] does what
    the scan does and, when the scan returns, returns the scanned table
    with the internal modules. *)
Theorem unregistered_bundle_type_falls_through {world exn : Type} (cwd : string)
    (sync : string -> list string -> M world exn (list string))
    (extractErrorCodes : errorCodeOptions -> M world exn (string -> M world exn unit))
    (n : nat) (moduleType : moduleType) (externals paths : list string)
    (extractErrors : bool) (stubs : value) (featureFlags : option string)
    (w : world) :
  getExternalModules (exn := exn) externals (OtherBundleType n) moduleType w
  = Normal externals w
  /\ getNodeModules cwd (OtherBundleType n) moduleType = None
  /\ getFbjsModuleAliases cwd (OtherBundleType n) = None
  /\ replaceFbjsModuleAliases (OtherBundleType n) = ∅
  /\ replaceDevOnlyStubbedModules cwd (OtherBundleType n) = None
  /\ replaceLegacyModuleAliases cwd (OtherBundleType n) = None
  /\ getDefaultReplaceModules (exn := exn) cwd (OtherBundleType n) stubs featureFlags w
     = Normal (replaceFeatureFlags cwd featureFlags
               ∪ replaceBundleStubModules cwd stubs) w
  /\ getAliases cwd sync extractErrorCodes paths (OtherBundleType n) moduleType
       extractErrors w
     = bind (extractErrorsArgument extractErrorCodes extractErrors)
         (fun hook =>
            bind (scanModules cwd sync paths hook)
              (fun moduleMap => ret (getInternalModules cwd moduleType ∪ moduleMap))) w.
Proof.
  repeat split.
  - rewrite getDefaultReplaceModules_run. unfold Object_assign. simpl.
    by rewrite !(left_id_L ∅ (∪)), (right_id_L ∅ (∪)).
  - unfold getAliases, createModuleMap, bind.
    destruct (extractErrorsArgument extractErrorCodes extractErrors w)
      as [hook w0|e w0]; [|reflexivity].
    destruct (scanModules cwd sync paths hook w0) as [moduleMap w'|e w'];
      [|reflexivity].
    case_decide as Hfb; [by destruct Hfb|]. reflexivity.
Qed.

(** C4, as stated, fails: for a bundle type outside the registry
    [getExternalModules], [getDefaultReplaceModules] and [getAliases] return
    a table and throw nothing. *)
Lemma unregistered_bundle_type_no_error :
  ~ (forall bundleType : bundleType,
       ~ registered bundleType ->
       exists e w',
         Sample.getExternalModules ["react-dom"] bundleType RENDERER [] = Throw e w')
  /\ Sample.getExternalModules ["react-dom"] (OtherBundleType 0) RENDERER []
     = Normal ["react-dom"] []
  /\ Sample.getDefaultReplaceModules (OtherBundleType 0) Undefined None []
     = Normal ∅ []
  /\ Sample.getAliases [] (OtherBundleType 0) ISOMORPHIC false []
     = Normal {[ "reactProdInvariant" :=
                   "/home/react/packages/shared/reactProdInvariant.js" ]} [].
Proof.
  split; [|split; [reflexivity | split; vm_compute; reflexivity]].
  intros Hthrows.
  destruct (Hthrows (OtherBundleType 0)) as (e & w' & Hrun); [by intros []|].
  discriminate Hrun.
Qed.

(** * Further properties *)

(** ** More on the external modules *)

(** X1. [getExternalModules] pushes ['ReactDOM'] exactly for the bundle
    types [FB_DEV] and [FB_PROD], a module type other than [ISOMORPHIC] and
    a caller's list that has ['react-dom']. *)
Theorem getExternalModules_pushes_ReactDOM {world exn : Type}
    (externals : list string) (bundleType : bundleType) (moduleType : moduleType)
    (w : world) :
  exists pushed : list string,
    getExternalModules (exn := exn) externals bundleType moduleType w
    = Normal (externals ++ pushed) w
    /\ ("ReactDOM" ∈ pushed
        <-> (bundleType = FB_DEV \/ bundleType = FB_PROD)
            /\ moduleType <> ISOMORPHIC /\ "react-dom" ∈ externals).
Proof.
  exists (appended externals bundleType moduleType).
  split; [apply getExternalModules_run|].
  unfold appended. destruct bundleType; repeat case_decide; simpl;
    match goal with |- ?x ∈ ?l <-> _ => settle_elem x l end;
    simpl; intuition (try congruence; try discriminate).
Qed.

(** X2. [getExternalModules] pushes the framework, ['react'] or ['React'],
    exactly when the bundle type is a registered one and the module type is
    not [ISOMORPHIC]: the core never has itself as an external. *)
Theorem getExternalModules_pushes_framework {world exn : Type}
    (externals : list string) (bundleType : bundleType) (moduleType : moduleType)
    (w : world) :
  exists pushed : list string,
    getExternalModules (exn := exn) externals bundleType moduleType w
    = Normal (externals ++ pushed) w
    /\ ("react" ∈ pushed \/ "React" ∈ pushed
        <-> registered bundleType /\ moduleType <> ISOMORPHIC).
Proof.
  exists (appended externals bundleType moduleType).
  split; [apply getExternalModules_run|].
  unfold appended. destruct bundleType; repeat case_decide; simpl;
    match goal with |- ?x ∈ ?l \/ ?y ∈ _ <-> _ => settle_elem x l; settle_elem y l end;
    simpl; intuition (try congruence; try discriminate).
Qed.

(** X3. For a registered bundle type, each fbjs module, and
    ['object-assign'], is pushed as an external exactly when neither
    [getFbjsModuleAliases] nor [getNodeModules] has an alias for it: the UMD
    bundles alias these names to files and keep them out of the externals,
    the other bundles do the opposite. *)
Theorem shared_modules_external_or_aliased {world exn : Type} (cwd : string)
    (externals : list string) (bundleType : bundleType) (moduleType : moduleType)
    (w : world) (name : string) :
  registered bundleType ->
  name ∈ fbjsModules ++ ["object-assign"] ->
  exists pushed : list string,
    getExternalModules (exn := exn) externals bundleType moduleType w
    = Normal (externals ++ pushed) w
    /\ (name ∈ pushed
        <-> entry_of (getFbjsModuleAliases cwd bundleType) name = None
            /\ entry_of (getNodeModules cwd bundleType moduleType) name = None).
Proof.
  intros Hreg Hname. exists (appended externals bundleType moduleType).
  split; [apply getExternalModules_run|].
  assert (Hframework : forall l, name ∈ l -> l = ["react"] \/ l = [] -> False).
  { intros l Hl [-> | ->]; [|by apply elem_of_nil in Hl].
    apply list_elem_of_singleton in Hl as ->. revert Hname.
    apply (bool_decide_unpack _). vm_compute. exact I. }
  destruct bundleType; try done; unfold appended.
  1-2: split;
    [ intros Hin; exfalso; apply (Hframework _ Hin); case_decide; auto
    | intros [Hfbjs Hnode]; exfalso; revert Hfbjs Hnode;
      simpl in Hname; repeat (apply elem_of_cons in Hname as [-> | Hname]);
      [ .. | by apply elem_of_nil in Hname ]; by vm_compute ].
  all: split; [intros _; split; reflexivity | intros _].
  all: apply elem_of_app in Hname as [Hn | Hn]; apply elem_of_app;
    [ by left
    | right; apply list_elem_of_singleton in Hn as ->; simpl;
      apply elem_of_cons; by left ].
Qed.

Lemma shared_modules_external_or_aliased_witness :
  registered RN_PROD
  /\ "fbjs/lib/invariant" ∈ fbjsModules ++ ["object-assign"]
  /\ exists pushed : list string,
       Sample.getExternalModules ["react-dom"] RN_PROD RENDERER []
       = Normal (["react-dom"] ++ pushed) []
       /\ ("fbjs/lib/invariant" ∈ pushed
           <-> entry_of (getFbjsModuleAliases Sample.cwd RN_PROD) "fbjs/lib/invariant"
               = None
               /\ entry_of (getNodeModules Sample.cwd RN_PROD RENDERER)
                    "fbjs/lib/invariant" = None).
Proof.
  split; [exact I | split].
  - apply (bool_decide_unpack _). vm_compute. exact I.
  - apply (shared_modules_external_or_aliased Sample.cwd ["react-dom"] RN_PROD
             RENDERER [] "fbjs/lib/invariant").
    + exact I.
    + apply (bool_decide_unpack _). vm_compute. exact I.
Defined.

(** X4. The development and the production bundle of one format get the
    same externals, the same aliases and the same casing and legacy
    replacements; of the sources only [replaceDevOnlyStubbedModules] looks
    at the optimization level, and for React Native the whole replacement
    table is the same. *)
Theorem optimization_level_changes_dev_only_stubs_only {world exn : Type}
    (cwd : string)
    (sync : string -> list string -> M world exn (list string))
    (extractErrorCodes : errorCodeOptions -> M world exn (string -> M world exn unit))
    (externals paths : list string) (moduleType : moduleType) (extractErrors : bool)
    (stubs : value) (featureFlags : option string) (w : world) :
  Forall (fun '(dev, prod) =>
            getExternalModules (exn := exn) externals dev moduleType w
            = getExternalModules externals prod moduleType w
            /\ getAliases cwd sync extractErrorCodes paths dev moduleType extractErrors w
               = getAliases cwd sync extractErrorCodes paths prod moduleType
                   extractErrors w
            /\ replaceFbjsModuleAliases dev = replaceFbjsModuleAliases prod
            /\ replaceLegacyModuleAliases cwd dev = replaceLegacyModuleAliases cwd prod)
         [ (UMD_DEV, UMD_PROD); (NODE_DEV, NODE_PROD); (FB_DEV, FB_PROD);
           (RN_DEV, RN_PROD) ]
  /\ getDefaultReplaceModules (exn := exn) cwd RN_DEV stubs featureFlags w
     = getDefaultReplaceModules cwd RN_PROD stubs featureFlags w.
Proof.
  split; [|reflexivity].
  repeat (apply Forall_cons; split); [.. | apply Forall_nil_2];
    repeat split; reflexivity.
Qed.

(** ** The scan of [createModuleMap] *)

Lemma fold_enter_lookup_inv (cwd : string) (files : list string) (acc : table)
    (key v : string) :
  fold_left (enterFile cwd) files acc !! key = Some v ->
  acc !! key = Some v
  \/ exists file, file ∈ files /\ Path.basename file ".js" = key
                  /\ v = Path.resolve cwd file.
Proof.
  revert acc. induction files as [|file files IH]; intros acc; simpl; [by left|].
  intros [Hacc | (g & Hg & Hkey & Hv)]%IH.
  - unfold enterFile in Hacc. rewrite lookup_set_property in Hacc.
    case_decide as Hd; [|by left].
    destruct Hd as [Hd _]. injection Hacc as <-.
    right. exists file. split; [left | done].
  - right. exists g. split; [by right | done].
Qed.

Lemma fold_enter_other (cwd : string) (files : list string) (acc : table)
    (key : string) :
  (forall file, file ∈ files -> Path.basename file ".js" <> key) ->
  fold_left (enterFile cwd) files acc !! key = acc !! key.
Proof.
  revert acc. induction files as [|file files IH]; intros acc Hfiles; simpl; [done|].
  rewrite IH by (intros g Hg; apply Hfiles; by right).
  unfold enterFile. rewrite lookup_set_property.
  case_decide as Hd; [|done]. destruct Hd as [Hd _].
  exfalso. apply (Hfiles file); [left | done].
Qed.

Lemma fold_enter_last (cwd : string) (before after : list string) (file : string)
    (acc : table) :
  Path.basename file ".js" <> "__proto__" ->
  (forall later, later ∈ after ->
                 Path.basename later ".js" <> Path.basename file ".js") ->
  fold_left (enterFile cwd) (before ++ file :: after) acc
    !! Path.basename file ".js"
  = Some (Path.resolve cwd file).
Proof.
  intros Hproto Hafter. rewrite fold_left_app. simpl.
  rewrite fold_enter_other by done.
  unfold enterFile at 1. rewrite lookup_set_property.
  by rewrite decide_True.
Qed.

Lemma fold_enter_no_proto (cwd : string) (files : list string) (acc : table) :
  acc !! "__proto__" = None ->
  fold_left (enterFile cwd) files acc !! "__proto__" = None.
Proof.
  revert acc. induction files as [|file files IH]; intros acc Hacc; simpl; [done|].
  apply IH. unfold enterFile. rewrite lookup_set_property.
  case_decide as Hd; [|done]. destruct Hd as [-> Hd]. done.
Qed.

Section Scan.
Context {world exn : Type}.
Variable cwd : string.
Variable sync : string -> list string -> M world exn (list string).

Lemma forEach_app {A S} (l1 l2 : list A) (callback : A -> S -> M world exn S)
    (s : S) (w : world) :
  forEach (l1 ++ l2) callback s w
  = bind (forEach l1 callback s) (forEach l2 callback) w.
Proof.
  revert s w. induction l1 as [|x l1 IH]; intros s w; simpl; [reflexivity|].
  unfold bind. destruct (callback x s w) as [s' w'|e w']; [|reflexivity].
  rewrite IH. reflexivity.
Qed.

(** The files of one pattern: the hook runs on each, and the table gets
    their entries in order. *)
Lemma scan_files_run (hook : option (string -> M world exn unit))
    (files : list string) (moduleMap : table) (w : world) :
  forEach files (fun file moduleMap =>
      bind (match hook with Some hook => hook file | None => ret tt end)
        (fun _ => ret (set_property (basename file ".js") (resolve cwd file)
                         moduleMap))) moduleMap w
  = bind (forEach files (fun file (_ : unit) =>
            match hook with Some hook => hook file | None => ret tt end) tt)
      (fun _ => ret (fold_left (enterFile cwd) files moduleMap)) w.
Proof.
  revert moduleMap w. induction files as [|file files IH]; intros moduleMap w;
    simpl; [reflexivity|].
  unfold bind.
  destruct (match hook with Some hook => hook file | None => ret tt end w)
    as [[] w'|e w']; [|reflexivity].
  unfold ret at 1. rewrite IH. reflexivity.
Qed.

Lemma bind_assoc {A B C} (m : M world exn A) (k1 : A -> M world exn B)
    (k2 : B -> M world exn C) (w : world) :
  bind (bind m k1) k2 w = bind m (fun a => bind (k1 a) k2) w.
Proof. unfold bind. by destruct (m w). Qed.

Lemma scan_paths_run (hook : option (string -> M world exn unit))
    (paths : list string) (moduleMap : table) (w : world) :
  forEach paths (fun path moduleMap =>
      bind (sync path exclude) (fun files =>
        forEach files (fun file moduleMap =>
          bind (match hook with Some hook => hook file | None => ret tt end)
            (fun _ => ret (set_property (basename file ".js") (resolve cwd file)
                             moduleMap))) moduleMap)) moduleMap w
  = bind (listFiles sync paths hook)
      (fun files => ret (fold_left (enterFile cwd) files moduleMap)) w.
Proof.
  revert moduleMap w. induction paths as [|path paths IH]; intros moduleMap w;
    simpl; [reflexivity|].
  rewrite !bind_assoc.
  destruct (sync path exclude w) as [files w1|e w1] eqn:Hsync;
    [|by rewrite !(bind_Throw _ _ _ _ _ Hsync)].
  rewrite !(bind_Normal _ _ _ _ _ Hsync), bind_assoc.
  destruct (forEach files (fun file (_ : unit) =>
              match hook with Some hook => hook file | None => ret tt end) tt w1)
    as [[] w2|e w2] eqn:Hvisit.
  - assert (Hfiles := scan_files_run hook files moduleMap w1).
    rewrite (bind_Normal _ _ _ _ _ Hvisit) in Hfiles.
    rewrite (bind_Normal _ _ _ _ _ Hfiles), (bind_Normal _ _ _ _ _ Hvisit).
    rewrite IH, bind_assoc. unfold bind, ret.
    destruct (listFiles sync paths hook w2) as [more w3|e w3]; [|reflexivity].
    by rewrite fold_left_app.
  - assert (Hfiles := scan_files_run hook files moduleMap w1).
    rewrite (bind_Throw _ _ _ _ _ Hvisit) in Hfiles.
    by rewrite (bind_Throw _ _ _ _ _ Hfiles), (bind_Throw _ _ _ _ _ Hvisit).
Qed.

Lemma scanModules_run (hook : option (string -> M world exn unit))
    (paths : list string) (w : world) :
  scanModules cwd sync paths hook w
  = bind (listFiles sync paths hook)
      (fun files => ret (fold_left (enterFile cwd) files ∅)) w.
Proof. apply scan_paths_run. Qed.

Lemma scanModules_listed (hook : option (string -> M world exn unit))
    (paths files : list string) (w w' : world) :
  listFiles sync paths hook w = Normal files w' ->
  scanModules cwd sync paths hook w
  = Normal (fold_left (enterFile cwd) files ∅) w'.
Proof. intros Hlist. rewrite scanModules_run. unfold bind. by rewrite Hlist. Qed.

Lemma scanModules_inv (hook : option (string -> M world exn unit))
    (paths : list string) (w w' : world) (scanned : table) :
  scanModules cwd sync paths hook w = Normal scanned w' ->
  exists files, listFiles sync paths hook w = Normal files w'
                /\ scanned = fold_left (enterFile cwd) files ∅.
Proof.
  rewrite scanModules_run. unfold bind, ret.
  destruct (listFiles sync paths hook w) as [files w1|e w1]; [|discriminate].
  intros [= <- <-]. by exists files.
Qed.

End Scan.

(** X5. [createModuleMap] separates into its collaborator calls and a pure
    table: it runs exactly the calls of [listFiles] and, when they return,
    returns the left fold of [enterFile] over the files visited, in the
    order visited, less the two reserved names for [FB_DEV] and [FB_PROD];
    when one of them throws, it throws the same. *)
Theorem createModuleMap_folds_visited_files {world exn : Type} (cwd : string)
    (sync : string -> list string -> M world exn (list string))
    (paths : list string) (hook : option (string -> M world exn unit))
    (bundleType : bundleType) (w : world) :
  createModuleMap cwd sync paths hook bundleType w
  = match listFiles sync paths hook w with
    | Normal files w' =>
        let moduleMap := fold_left (enterFile cwd) files ∅ in
        Normal (if decide (bundleType = FB_DEV \/ bundleType = FB_PROD)
                then delete "lowPriorityWarning" (delete "ReactCurrentOwner" moduleMap)
                else moduleMap) w'
    | Throw e w' => Throw e w'
    end.
Proof.
  destruct (listFiles sync paths hook w) as [files w'|e w'] eqn:Hlist.
  - apply createModuleMap_run. by apply scanModules_listed.
  - apply createModuleMap_throws. rewrite scanModules_run. by apply bind_Throw.
Qed.

(** X6. A file visited by the scan is found under its base name, with its
    resolved path, when no file visited after it has the same base name:
    of two files with one base name the later one wins.  (The base name must
    not be [__proto__], which never becomes a key, nor one of the two names
    deleted for [FB_DEV] and [FB_PROD].) *)
Theorem createModuleMap_last_file_wins {world exn : Type} (cwd : string)
    (sync : string -> list string -> M world exn (list string))
    (paths : list string) (hook : option (string -> M world exn unit))
    (bundleType : bundleType) (w w' : world)
    (before after : list string) (file : string) :
  listFiles sync paths hook w = Normal (before ++ file :: after) w' ->
  Path.basename file ".js" <> "__proto__" ->
  (forall later, later ∈ after ->
                 Path.basename later ".js" <> Path.basename file ".js") ->
  ~ ((bundleType = FB_DEV \/ bundleType = FB_PROD)
     /\ (Path.basename file ".js" = "ReactCurrentOwner"
         \/ Path.basename file ".js" = "lowPriorityWarning")) ->
  exists moduleMap : table,
    createModuleMap cwd sync paths hook bundleType w = Normal moduleMap w'
    /\ moduleMap !! Path.basename file ".js" = Some (Path.resolve cwd file).
Proof.
  intros Hlist Hproto Hafter Hreserved. eexists. split.
  - apply createModuleMap_run. by apply scanModules_listed.
  - case_decide as Hfb; [|by apply fold_enter_last].
    rewrite !lookup_delete_ne by (intros Heq; apply Hreserved; auto).
    by apply fold_enter_last.
Qed.

Lemma createModuleMap_last_file_wins_witness :
  Sample.listFiles ["src/**/*.js"; "src/**/*.js"] None []
  = Normal ((Sample.files ++ ["src/isomorphic/React.js"])
            ++ "src/isomorphic/classic/element/ReactCurrentOwner.js"
               :: ["src/shared/utils/lowPriorityWarning.js"]) []
  /\ Path.basename "src/isomorphic/classic/element/ReactCurrentOwner.js" ".js"
     <> "__proto__"
  /\ exists moduleMap : table,
       Sample.createModuleMap ["src/**/*.js"; "src/**/*.js"] None RN_DEV []
       = Normal moduleMap []
       /\ moduleMap !! "ReactCurrentOwner"
          = Some "/home/react/src/isomorphic/classic/element/ReactCurrentOwner.js".
Proof.
  split; [vm_compute; reflexivity | split; [vm_compute; discriminate|]].
  apply (createModuleMap_last_file_wins Sample.cwd Sample.sync
           ["src/**/*.js"; "src/**/*.js"] None RN_DEV [] []
           (Sample.files ++ ["src/isomorphic/React.js"])
           ["src/shared/utils/lowPriorityWarning.js"]
           "src/isomorphic/classic/element/ReactCurrentOwner.js").
  - vm_compute. reflexivity.
  - vm_compute. discriminate.
  - intros later Hlater. apply list_elem_of_singleton in Hlater as ->.
    vm_compute. discriminate.
  - intros [[Hfb | Hfb] _]; discriminate Hfb.
Defined.

(** X7. Whenever the scan returns, every key of the table of
    [createModuleMap] is the base name of a file the scan visited and its
    value is that file's resolved path; [__proto__] is never a key. *)
Theorem createModuleMap_keys_are_basenames {world exn : Type} (cwd : string)
    (sync : string -> list string -> M world exn (list string))
    (paths : list string) (hook : option (string -> M world exn unit))
    (bundleType : bundleType) (w w' : world) (files : list string) :
  listFiles sync paths hook w = Normal files w' ->
  exists moduleMap : table,
    createModuleMap cwd sync paths hook bundleType w = Normal moduleMap w'
    /\ (forall key v, moduleMap !! key = Some v ->
          exists file, file ∈ files /\ Path.basename file ".js" = key
                       /\ v = Path.resolve cwd file)
    /\ moduleMap !! "__proto__" = None.
Proof.
  intros Hlist. eexists. split; [|split].
  - apply createModuleMap_run. by apply scanModules_listed.
  - intros key v Hkey.
    assert (Hfold : fold_left (enterFile cwd) files ∅ !! key = Some v).
    { case_decide; [|done].
      apply lookup_delete_Some in Hkey as [_ Hkey].
      by apply lookup_delete_Some in Hkey as [_ Hkey]. }
    apply fold_enter_lookup_inv in Hfold as [Hempty | Hfile]; [|done].
    by rewrite lookup_empty in Hempty.
  - assert (Hfold : fold_left (enterFile cwd) files ∅ !! "__proto__" = None)
      by (apply fold_enter_no_proto, lookup_empty).
    case_decide; [|done]. by rewrite !lookup_delete_ne.
Qed.

Lemma createModuleMap_keys_are_basenames_witness :
  Sample.listFiles ["src/**/*.js"] (Some Sample.hook) [] = Normal Sample.files Sample.files
  /\ exists moduleMap : table,
       Sample.createModuleMap ["src/**/*.js"] (Some Sample.hook) FB_DEV []
       = Normal moduleMap Sample.files
       /\ (forall key v, moduleMap !! key = Some v ->
             exists file, file ∈ Sample.files /\ Path.basename file ".js" = key
                          /\ v = Path.resolve Sample.cwd file)
       /\ moduleMap !! "__proto__" = None.
Proof.
  split; [vm_compute; reflexivity|].
  apply (createModuleMap_keys_are_basenames Sample.cwd Sample.sync
           ["src/**/*.js"] (Some Sample.hook) FB_DEV [] Sample.files Sample.files).
  vm_compute. reflexivity.
Defined.

(** X8. When listing a pattern throws, [getAliases] throws the same error in
    the world the failure left: the patterns after it are not listed and no
    table is returned. *)
Theorem getAliases_scan_failure {world exn : Type} (cwd : string)
    (sync : string -> list string -> M world exn (list string))
    (extractErrorCodes : errorCodeOptions -> M world exn (string -> M world exn unit))
    (before after : list string) (path : string)
    (bundleType : bundleType) (moduleType : moduleType) (extractErrors : bool)
    (w w0 w1 w2 : world) hook (files : list string) (e : exn) :
  extractErrorsArgument extractErrorCodes extractErrors w = Normal hook w0 ->
  listFiles sync before hook w0 = Normal files w1 ->
  sync path exclude w1 = Throw e w2 ->
  getAliases cwd sync extractErrorCodes (before ++ path :: after) bundleType
    moduleType extractErrors w
  = Throw e w2.
Proof.
  intros Hhook Hlist Hsync.
  apply getAliases_throws with (hook := hook) (w0 := w0); [done|].
  apply createModuleMap_throws.
  pose proof (scanModules_listed cwd sync hook before files w0 w1 Hlist) as Hscan.
  unfold scanModules in *. rewrite forEach_app, (bind_Normal _ _ _ _ _ Hscan).
  simpl. by do 2 apply bind_Throw.
Qed.

Lemma getAliases_scan_failure_witness :
  Sample.extractErrorsArgument true [] = Normal (Some Sample.hook) []
  /\ Sample.listFiles ["src/**/*.js"] (Some Sample.hook) []
     = Normal Sample.files Sample.files
  /\ Sample.sync "missing/**/*.js" exclude Sample.files = Throw "ENOENT" Sample.files
  /\ Sample.getAliases (["src/**/*.js"] ++ "missing/**/*.js" :: ["src/**/*.js"])
       UMD_DEV RENDERER true []
     = Throw "ENOENT" Sample.files.
Proof.
  split; [reflexivity | split; [vm_compute; reflexivity | split; [reflexivity|]]].
  apply (getAliases_scan_failure Sample.cwd Sample.sync Sample.extractErrorCodes
           ["src/**/*.js"] ["src/**/*.js"] "missing/**/*.js" UMD_DEV RENDERER true
           [] [] Sample.files Sample.files (Some Sample.hook) Sample.files "ENOENT").
  - reflexivity.
  - vm_compute. reflexivity.
  - reflexivity.
Defined.

Lemma listFiles_nothing {world exn : Type}
    (sync : string -> list string -> M world exn (list string))
    (paths : list string) (hook : option (string -> M world exn unit)) (w : world) :
  (forall path, path ∈ paths -> forall w, sync path exclude w = Normal [] w) ->
  listFiles sync paths hook w = Normal [] w.
Proof.
  induction paths as [|path paths IH]; intros Hsync; simpl; [reflexivity|].
  rewrite (bind_Normal _ _ _ _ _ (Hsync path ltac:(left) w)). simpl.
  unfold bind at 1. unfold ret at 1.
  rewrite (bind_Normal _ _ _ _ _ (IH (fun p Hp => Hsync p ltac:(by right)))).
  reflexivity.
Qed.

(** X9. Patterns that match no file are no error: when every pattern lists
    nothing, [createModuleMap] returns the empty table, for every bundle
    type, and leaves the world as it was. *)
Theorem createModuleMap_no_files {world exn : Type} (cwd : string)
    (sync : string -> list string -> M world exn (list string))
    (paths : list string) (hook : option (string -> M world exn unit))
    (bundleType : bundleType) (w : world) :
  (forall path, path ∈ paths -> forall w, sync path exclude w = Normal [] w) ->
  createModuleMap cwd sync paths hook bundleType w = Normal ∅ w.
Proof.
  intros Hsync.
  rewrite (createModuleMap_run cwd sync paths hook bundleType w ∅ w).
  - case_decide; [|done]. by rewrite !delete_empty.
  - apply (scanModules_listed cwd sync hook paths [] w w).
    by apply listFiles_nothing.
Qed.

Lemma createModuleMap_no_files_witness :
  (forall path, path ∈ ["packages/**/*.js"; ""] ->
                forall w, Sample.sync path exclude w = Normal [] w)
  /\ Sample.createModuleMap ["packages/**/*.js"; ""] (Some Sample.hook) FB_PROD []
     = Normal ∅ [].
Proof.
  assert (Hnone : forall path, path ∈ ["packages/**/*.js"; ""] ->
                    forall w, Sample.sync path exclude w = Normal [] w).
  { intros path Hpath w.
    apply elem_of_cons in Hpath as [-> | Hpath]; [reflexivity|].
    apply list_elem_of_singleton in Hpath as ->. reflexivity. }
  split; [exact Hnone|].
  apply (createModuleMap_no_files Sample.cwd Sample.sync
           ["packages/**/*.js"; ""] (Some Sample.hook) FB_PROD []).
  exact Hnone.
Defined.

(** ** More on the alias tables *)

Lemma resolve_absolute_path (cwd p : string) :
  Path.isAbsolute (Path.resolve cwd p) = true.
Proof. reflexivity. Qed.

Lemma map_Forall_set_property (P : string -> string -> Prop) (key v : string)
    (object : table) :
  P key v -> map_Forall P object -> map_Forall P (set_property key v object).
Proof.
  intros Hv Hobject. unfold set_property.
  destruct (String.eqb key "__proto__"); [done|]. by apply map_Forall_insert_2.
Qed.

Lemma map_Forall_fold_set_property {A} (P : string -> string -> Prop)
    (key value : A -> string) (items : list A) (object : table) :
  (forall item, item ∈ items -> P (key item) (value item)) ->
  map_Forall P object ->
  map_Forall P (fold_left (fun object item =>
                             set_property (key item) (value item) object)
                          items object).
Proof.
  revert object. induction items as [|item items IH]; intros object Hitems Hobject;
    simpl; [done|].
  apply IH; [intros i Hi; apply Hitems; by right|].
  apply map_Forall_set_property; [apply Hitems; left | done].
Qed.

Lemma map_Forall_Object_assign (P : string -> string -> Prop)
    (sources : list (option table)) (target : table) :
  map_Forall P target ->
  Forall (fun source => forall s, source = Some s -> map_Forall P s) sources ->
  map_Forall P (Object_assign target sources).
Proof.
  unfold Object_assign. revert target.
  induction sources as [|source sources IH]; intros target Htarget Hsources;
    simpl; [done|].
  apply Forall_cons in Hsources as [Hsource Hsources].
  apply IH; [|done]. destruct source as [s|]; simpl; [|done].
  intros key v [Hs | [_ Ht]]%lookup_union_Some_raw.
  - by apply (Hsource s eq_refl key v).
  - by apply (Htarget key v).
Qed.

Section AliasValues.
Context {world exn : Type}.
Variable cwd : string.
Variable sync : string -> list string -> M world exn (list string).

Lemma getInternalModules_absolute moduleType :
  map_Forall absolute_value (getInternalModules cwd moduleType).
Proof.
  unfold getInternalModules. case_decide.
  - apply map_Forall_set_property; [reflexivity|].
    apply map_Forall_insert_2; [reflexivity | apply map_Forall_empty].
  - apply map_Forall_insert_2; [reflexivity | apply map_Forall_empty].
Qed.

Lemma getNodeModules_absolute bundleType moduleType s :
  getNodeModules cwd bundleType moduleType = Some s -> map_Forall absolute_value s.
Proof.
  destruct bundleType; intros [= <-]; try apply map_Forall_empty.
  all: destruct (decide (moduleType = ISOMORPHIC));
    repeat (apply map_Forall_insert_2; [reflexivity|]); apply map_Forall_empty.
Qed.

Lemma fbjs_aliases_absolute (names : list string) :
  map_Forall absolute_value
    (fold_left (fun fbjsModulesAlias fbjsModule =>
                  set_property fbjsModule (resolve cwd ("./node_modules/" +:+ fbjsModule))
                    fbjsModulesAlias)
               names ∅).
Proof.
  apply (map_Forall_fold_set_property absolute_value (fun m => m)
           (fun m => resolve cwd ("./node_modules/" +:+ m)));
    [intros; reflexivity | apply map_Forall_empty].
Qed.

Lemma getFbjsModuleAliases_absolute bundleType s :
  getFbjsModuleAliases cwd bundleType = Some s -> map_Forall absolute_value s.
Proof.
  destruct bundleType; intros [= <-]; try apply map_Forall_empty.
  all: exact (fbjs_aliases_absolute fbjsModules).
Qed.

Lemma createModuleMap_absolute paths hook bundleType (w w' : world) moduleMap :
  createModuleMap cwd sync paths hook bundleType w = Normal moduleMap w' ->
  map_Forall absolute_value moduleMap.
Proof.
  unfold createModuleMap, bind.
  destruct (scanModules cwd sync paths hook w) as [scanned w1|e w1] eqn:Hscan;
    [|discriminate].
  apply scanModules_inv in Hscan as (files & _ & ->).
  assert (Hfold : map_Forall absolute_value (fold_left (enterFile cwd) files ∅)).
  { intros key v [Hempty | (file & _ & _ & ->)]%fold_enter_lookup_inv.
    - by rewrite lookup_empty in Hempty.
    - reflexivity. }
  case_decide; intros [= <- <-]; [|done].
  intros key v Hkey. apply lookup_delete_Some in Hkey as [_ Hkey].
  apply lookup_delete_Some in Hkey as [_ Hkey]. by apply (Hfold key v).
Qed.

End AliasValues.

(** X10. Whenever the scan returns, every value of the table of
    [getAliases] is an absolute path. *)
Theorem getAliases_values_absolute {world exn : Type} (cwd : string)
    (sync : string -> list string -> M world exn (list string))
    (extractErrorCodes : errorCodeOptions -> M world exn (string -> M world exn unit))
    (paths : list string) (bundleType : bundleType) (moduleType : moduleType)
    (extractErrors : bool) (w : world) hook w0 moduleMap w' :
  extractErrorsArgument extractErrorCodes extractErrors w = Normal hook w0 ->
  createModuleMap cwd sync paths hook bundleType w0 = Normal moduleMap w' ->
  exists aliases : table,
    getAliases cwd sync extractErrorCodes paths bundleType moduleType extractErrors w
    = Normal aliases w'
    /\ forall key v, aliases !! key = Some v -> Path.isAbsolute v = true.
Proof.
  intros Hhook Hmap. eexists. split.
  - by apply getAliases_run with (hook := hook) (w0 := w0).
  - apply (map_Forall_Object_assign absolute_value).
    + by apply (createModuleMap_absolute cwd sync paths hook bundleType w0 w').
    + repeat apply Forall_cons_2; [.. | apply Forall_nil_2].
      * intros s [= <-]. apply getInternalModules_absolute.
      * apply getNodeModules_absolute.
      * apply getFbjsModuleAliases_absolute.
Qed.

Lemma getAliases_values_absolute_witness :
  Sample.extractErrorsArgument true [] = Normal (Some Sample.hook) []
  /\ Sample.createModuleMap ["src/**/*.js"] (Some Sample.hook) UMD_PROD []
     = Normal Sample.scanned Sample.files
  /\ exists aliases : table,
       Sample.getAliases ["src/**/*.js"] UMD_PROD ISOMORPHIC true []
       = Normal aliases Sample.files
       /\ forall key v, aliases !! key = Some v -> Path.isAbsolute v = true.
Proof.
  split; [reflexivity | split; [vm_compute; reflexivity|]].
  apply (getAliases_values_absolute Sample.cwd Sample.sync Sample.extractErrorCodes
           ["src/**/*.js"] UMD_PROD ISOMORPHIC true [] (Some Sample.hook) []
           Sample.scanned Sample.files).
  - reflexivity.
  - vm_compute. reflexivity.
Defined.

Lemma fixed_aliases_disjoint (cwd : string) (bundleType : bundleType)
    (moduleType : moduleType) (key : string) :
  (is_Some (getInternalModules cwd moduleType !! key) ->
   entry_of (getNodeModules cwd bundleType moduleType) key = None
   /\ entry_of (getFbjsModuleAliases cwd bundleType) key = None)
  /\ (is_Some (entry_of (getNodeModules cwd bundleType moduleType) key) ->
      entry_of (getFbjsModuleAliases cwd bundleType) key = None).
Proof.
  assert (Hdisjoint :
    getInternalModules cwd moduleType
      ##ₘ default ∅ (getNodeModules cwd bundleType moduleType)
    /\ getInternalModules cwd moduleType
         ##ₘ default ∅ (getFbjsModuleAliases cwd bundleType)
    /\ default ∅ (getNodeModules cwd bundleType moduleType)
         ##ₘ default ∅ (getFbjsModuleAliases cwd bundleType)).
  { destruct bundleType, moduleType; repeat split; apply map_disjoint_dom;
      apply (bool_decide_unpack _); vm_compute; exact I. }
  destruct Hdisjoint as (Hnode & Hfbjs & Hboth).
  assert (Hentry : forall source : option table,
            entry_of source key = default ∅ source !! key)
    by (intros [s|]; [reflexivity | symmetry; apply lookup_empty]).
  rewrite !Hentry. split.
  - intros [v Hv]. split.
    + by apply (map_disjoint_Some_l _ _ _ _ Hnode Hv).
    + by apply (map_disjoint_Some_l _ _ _ _ Hfbjs Hv).
  - intros [v Hv]. by apply (map_disjoint_Some_l _ _ _ _ Hboth Hv).
Qed.

(** X11. The fixed aliases cannot be shadowed: a key of the internal
    modules, of the node modules or of the fbjs aliases has that alias in
    the table of [getAliases], whatever file the scan found under the same
    name (the three fixed tables have no key in common); every other key has
    the entry of the scanned table. *)
Theorem getAliases_fixed_aliases_win {world exn : Type} (cwd : string)
    (sync : string -> list string -> M world exn (list string))
    (extractErrorCodes : errorCodeOptions -> M world exn (string -> M world exn unit))
    (paths : list string) (bundleType : bundleType) (moduleType : moduleType)
    (extractErrors : bool) (w : world) hook w0 moduleMap w' :
  extractErrorsArgument extractErrorCodes extractErrors w = Normal hook w0 ->
  createModuleMap cwd sync paths hook bundleType w0 = Normal moduleMap w' ->
  exists aliases : table,
    getAliases cwd sync extractErrorCodes paths bundleType moduleType extractErrors w
    = Normal aliases w'
    /\ (forall key v,
          getInternalModules cwd moduleType !! key = Some v
          \/ entry_of (getNodeModules cwd bundleType moduleType) key = Some v
          \/ entry_of (getFbjsModuleAliases cwd bundleType) key = Some v ->
          aliases !! key = Some v)
    /\ (forall key,
          getInternalModules cwd moduleType !! key = None ->
          entry_of (getNodeModules cwd bundleType moduleType) key = None ->
          entry_of (getFbjsModuleAliases cwd bundleType) key = None ->
          aliases !! key = moduleMap !! key).
Proof.
  intros Hhook Hmap. eexists. split; [|split].
  - by apply getAliases_run with (hook := hook) (w0 := w0).
  - intros key v Hfixed. rewrite lookup_Object_assign. simpl.
    destruct (fixed_aliases_disjoint cwd bundleType moduleType key)
      as [Hinternal Hnode].
    destruct Hfixed as [Hv | [Hv | Hv]].
    + destruct Hinternal as [-> ->]; [by eexists|]. by rewrite Hv.
    + rewrite Hnode by (by eexists). by rewrite Hv.
    + by rewrite Hv.
  - intros key Hinternal Hnode Hfbjs. rewrite lookup_Object_assign. simpl.
    by rewrite Hfbjs, Hnode, Hinternal.
Qed.

Lemma getAliases_fixed_aliases_win_witness :
  Sample.extractErrorsArgument false [] = Normal None []
  /\ Sample.createModuleMap ["src/**/*.js"] None UMD_DEV [] = Normal Sample.scanned []
  /\ exists aliases : table,
       Sample.getAliases ["src/**/*.js"] UMD_DEV RENDERER false [] = Normal aliases []
       /\ aliases !! "fbjs/lib/invariant"
          = Some "/home/react/node_modules/fbjs/lib/invariant"
       /\ aliases !! "React" = Some "/home/react/src/isomorphic/React.js".
Proof.
  split; [reflexivity | split; [vm_compute; reflexivity|]].
  destruct (getAliases_fixed_aliases_win Sample.cwd Sample.sync
              Sample.extractErrorCodes ["src/**/*.js"] UMD_DEV RENDERER false []
              None [] Sample.scanned [])
    as (aliases & Hrun & Hfixed & Hscanned);
    [reflexivity | vm_compute; reflexivity |].
  exists aliases. split; [exact Hrun | split].
  - apply Hfixed. right. right. reflexivity.
  - rewrite Hscanned by reflexivity. reflexivity.
Defined.

(** ** More on the replacement tables *)

Lemma append_cancel_quote (s t : string) : s +:+ "'" = t +:+ "'" -> s = t.
Proof.
  revert t. induction s as [|a s IH]; intros [|b t] Heq.
  - reflexivity.
  - change ("'" = String b (t +:+ "'")) in Heq. by destruct t.
  - change (String a (s +:+ "'") = "'") in Heq. by destruct s.
  - change (String a (s +:+ "'") = String b (t +:+ "'")) in Heq.
    injection Heq as -> Heq. f_equal. by apply IH.
Qed.

Lemma quote_inj (s t : string) : "'" +:+ s +:+ "'" = "'" +:+ t +:+ "'" -> s = t.
Proof.
  change (String "'" (s +:+ "'") = String "'" (t +:+ "'") -> s = t).
  intros [= Heq]. by apply append_cancel_quote.
Qed.

Lemma ends_with_quote_append (body : string) : ends_with_quote (body +:+ "'") = true.
Proof.
  induction body as [|c body IH]; [reflexivity|].
  change (ends_with_quote (String c (body +:+ "'")) = true).
  destruct body as [|c' body]; [reflexivity|]. exact IH.
Qed.

Lemma is_quoted_quote (body : string) : is_quoted ("'" +:+ body +:+ "'") = true.
Proof.
  change (is_quoted (String "'" (body +:+ "'")) = true).
  simpl. apply ends_with_quote_append.
Qed.

Section Stubs.
Variable cwd : string.

Lemma stub_fold_lookup (modules : list string) (acc : table) (key : string) :
  is_Some (fold_left (fun stubbedModules module =>
                        set_property ("'" +:+ module +:+ "'") (devOnlyModuleStub cwd)
                          stubbedModules)
                     modules acc !! key)
  <-> is_Some (acc !! key)
      \/ exists module, module ∈ modules /\ key = "'" +:+ module +:+ "'".
Proof.
  revert acc. induction modules as [|module modules IH]; intros acc; simpl.
  - split; [by left | intros [H | (m & Hm & _)]; [done | by apply elem_of_nil in Hm]].
  - rewrite IH, lookup_set_property. split.
    + intros [Hacc | (m & Hm & ->)].
      * case_decide as Hd; [|by left].
        destruct Hd as [<- _]. right. exists module. split; [left | done].
      * right. exists m. split; [by right | done].
    + intros [Hacc | (m & Hm & ->)].
      * left. by case_decide.
      * apply elem_of_cons in Hm as [-> | Hm].
        -- left. rewrite decide_True; [by eexists | by split].
        -- right. by exists m.
Qed.

End Stubs.

(** X12. For a stub list that is an array, the keys of
    [replaceBundleStubModules] are exactly the caller's names put between
    single quotes, and every value is [devOnlyModuleStub]. *)
Theorem replaceBundleStubModules_quotes_each_name (cwd : string)
    (modules : list string) (key : string) :
  (is_Some (replaceBundleStubModules cwd (Array modules) !! key)
   <-> exists module, module ∈ modules /\ key = "'" +:+ module +:+ "'")
  /\ (forall v, replaceBundleStubModules cwd (Array modules) !! key = Some v ->
                v = devOnlyModuleStub cwd).
Proof.
  split.
  - simpl. rewrite stub_fold_lookup, lookup_empty. split.
    + intros [[v Hv] | Hm]; [discriminate | done].
    + intros Hm. by right.
  - intros v. apply replaceBundleStubModules_values.
Qed.

(** X13. The entry for ['ReactFeatureFlags'] in the table of
    [getDefaultReplaceModules]: with a non-empty feature-flag path it is the
    resolved path between quotes, even when the caller also stubs
    [ReactFeatureFlags]; without one (left out, or the empty string) it is
    whatever the caller's stubs have for that key. *)
Theorem getDefaultReplaceModules_feature_flags {world exn : Type} (cwd : string)
    (bundleType : bundleType) (stubs : value) (featureFlags : option string)
    (w : world) :
  exists replacements : table,
    getDefaultReplaceModules (exn := exn) cwd bundleType stubs featureFlags w
    = Normal replacements w
    /\ replacements !! "'ReactFeatureFlags'"
       = match featureFlags with
         | Some flags =>
             if String.eqb flags ""
             then replaceBundleStubModules cwd stubs !! "'ReactFeatureFlags'"
             else Some ("'" +:+ Path.resolve cwd flags +:+ "'")
         | None => replaceBundleStubModules cwd stubs !! "'ReactFeatureFlags'"
         end.
Proof.
  eexists. split; [apply getDefaultReplaceModules_run|].
  rewrite lookup_Object_assign. simpl.
  assert (Hfixed :
    match replaceBundleStubModules cwd stubs !! "'ReactFeatureFlags'" with
    | Some v => Some v
    | None =>
        match entry_of (replaceLegacyModuleAliases cwd bundleType) "'ReactFeatureFlags'" with
        | Some v => Some v
        | None =>
            match entry_of (replaceDevOnlyStubbedModules cwd bundleType)
                    "'ReactFeatureFlags'" with
            | Some v => Some v
            | None =>
                match replaceFbjsModuleAliases bundleType !! "'ReactFeatureFlags'" with
                | Some v => Some v
                | None => (∅ : table) !! "'ReactFeatureFlags'"
                end
            end
        end
    end = replaceBundleStubModules cwd stubs !! "'ReactFeatureFlags'").
  { destruct (replaceBundleStubModules cwd stubs !! "'ReactFeatureFlags'");
      [reflexivity|]. destruct bundleType; reflexivity. }
  destruct featureFlags as [flags|]; simpl; [|by rewrite lookup_empty].
  destruct (String.eqb flags ""); [by rewrite lookup_empty|].
  by rewrite lookup_insert_eq.
Qed.

(** X14. A name in the caller's stub list is stubbed whatever the fixed
    rules say about it: its quoted form maps to [devOnlyModuleStub] in the
    table of [getDefaultReplaceModules] for every bundle type, also when a
    casing rewrite or a legacy redirect has the same key.  Only the feature
    flags come later, so the name must not be [ReactFeatureFlags]. *)
Theorem getDefaultReplaceModules_caller_stub_wins {world exn : Type} (cwd : string)
    (bundleType : bundleType) (modules : list string) (featureFlags : option string)
    (w : world) (module : string) :
  module ∈ modules ->
  module <> "ReactFeatureFlags" ->
  exists replacements : table,
    getDefaultReplaceModules (exn := exn) cwd bundleType (Array modules) featureFlags w
    = Normal replacements w
    /\ replacements !! ("'" +:+ module +:+ "'") = Some (devOnlyModuleStub cwd).
Proof.
  intros Hmodule Hflags. eexists. split; [apply getDefaultReplaceModules_run|].
  rewrite lookup_Object_assign.
  remember (replaceBundleStubModules cwd (Array modules)) as stubbed eqn:Hstubbed.
  simpl.
  rewrite replaceFeatureFlags_other
    by (intros Heq; apply Hflags; by apply quote_inj).
  destruct (stubbed !! ("'" +:+ module +:+ "'")) as [v|] eqn:Hstub; subst stubbed.
  - f_equal. by apply replaceBundleStubModules_values with (Array modules)
                       ("'" +:+ module +:+ "'").
  - exfalso. apply eq_None_not_Some in Hstub. apply Hstub.
    simpl. apply stub_fold_lookup. right. by exists module.
Qed.

Lemma getDefaultReplaceModules_caller_stub_wins_witness :
  "prop-types" ∈ ["ReactDOMFeatureFlags"; "prop-types"]
  /\ "prop-types" <> "ReactFeatureFlags"
  /\ entry_of (replaceLegacyModuleAliases Sample.cwd UMD_DEV) "'prop-types'"
     = Some "'/home/react/node_modules/prop-types/index'"
  /\ exists replacements : table,
       Sample.getDefaultReplaceModules UMD_DEV
         (Array ["ReactDOMFeatureFlags"; "prop-types"]) (Some "flags.js") []
       = Normal replacements []
       /\ replacements !! ("'" +:+ "prop-types" +:+ "'")
          = Some (devOnlyModuleStub Sample.cwd).
Proof.
  split; [by right; left | split; [discriminate | split; [reflexivity|]]].
  apply (getDefaultReplaceModules_caller_stub_wins Sample.cwd UMD_DEV
           ["ReactDOMFeatureFlags"; "prop-types"] (Some "flags.js") [] "prop-types").
  - right. left.
  - discriminate.
Defined.

Section Quoted.
Variable cwd : string.

Lemma devOnlyModuleStub_quoted : is_quoted (devOnlyModuleStub cwd) = true.
Proof. apply is_quoted_quote. Qed.

Lemma replaceFbjsModuleAliases_quoted bundleType :
  map_Forall quoted_entry (replaceFbjsModuleAliases bundleType).
Proof.
  destruct bundleType; try apply map_Forall_empty;
    repeat (apply map_Forall_insert_2; [by split|]); apply map_Forall_empty.
Qed.

Lemma dev_only_stubs_quoted :
  map_Forall quoted_entry
    (fold_left (fun devOnlyModuleAliases devOnlyModule =>
                  set_property devOnlyModule (devOnlyModuleStub cwd) devOnlyModuleAliases)
               devOnlyFilesToStubOut ∅).
Proof.
  apply (map_Forall_fold_set_property quoted_entry (fun m => m)
           (fun _ => devOnlyModuleStub cwd)); [|apply map_Forall_empty].
  intros name Hname. split; [|apply devOnlyModuleStub_quoted].
  unfold devOnlyFilesToStubOut in Hname.
  repeat (apply elem_of_cons in Hname as [-> | Hname]); try reflexivity.
  by apply elem_of_nil in Hname.
Qed.

Lemma legacy_aliases_quoted (names : list string) :
  map_Forall quoted_entry
    (fold_left (fun modulesAlias legacyModule =>
                  set_property ("'" +:+ legacyModule +:+ "'")
                    ("'" +:+ resolve cwd
                               ("./node_modules/"
                                +:+ (if includes_slash legacyModule then legacyModule
                                     else legacyModule +:+ "/index")) +:+ "'")
                    modulesAlias)
               names ∅).
Proof.
  apply (map_Forall_fold_set_property quoted_entry
           (fun m => "'" +:+ m +:+ "'")
           (fun m => "'" +:+ resolve cwd
                               ("./node_modules/"
                                +:+ (if includes_slash m then m else m +:+ "/index"))
                     +:+ "'")); [|apply map_Forall_empty].
  intros name _. split; apply is_quoted_quote.
Qed.

Lemma replaceBundleStubModules_quoted (stubs : value) :
  map_Forall quoted_entry (replaceBundleStubModules cwd stubs).
Proof.
  destruct stubs; try apply map_Forall_empty.
  apply (map_Forall_fold_set_property quoted_entry
           (fun m => "'" +:+ m +:+ "'") (fun _ => devOnlyModuleStub cwd));
    [|apply map_Forall_empty].
  intros name _. split; [apply is_quoted_quote | apply devOnlyModuleStub_quoted].
Qed.

Lemma replaceFeatureFlags_quoted (featureFlags : option string) :
  map_Forall quoted_entry (replaceFeatureFlags cwd featureFlags).
Proof.
  destruct featureFlags as [flags|]; simpl; [|apply map_Forall_empty].
  destruct (String.eqb flags ""); [apply map_Forall_empty|].
  apply map_Forall_insert_2; [|apply map_Forall_empty].
  split; [reflexivity | apply is_quoted_quote].
Qed.

End Quoted.

(** X15. Every entry of the table of [getDefaultReplaceModules] rewrites a
    literal between single quotes to a literal between single quotes,
    whatever the bundle type, the caller's stubs and the feature flags. *)
Theorem getDefaultReplaceModules_entries_quoted {world exn : Type} (cwd : string)
    (bundleType : bundleType) (stubs : value) (featureFlags : option string)
    (w : world) :
  exists replacements : table,
    getDefaultReplaceModules (exn := exn) cwd bundleType stubs featureFlags w
    = Normal replacements w
    /\ map_Forall (fun key v => is_quoted key = true /\ is_quoted v = true)
                  replacements.
Proof.
  eexists. split; [apply getDefaultReplaceModules_run|].
  apply (map_Forall_Object_assign quoted_entry); [apply map_Forall_empty|].
  repeat apply Forall_cons_2; [.. | apply Forall_nil_2].
  - intros s [= <-]. apply replaceFbjsModuleAliases_quoted.
  - destruct bundleType; intros s [= <-]; try apply map_Forall_empty;
      exact (dev_only_stubs_quoted cwd).
  - destruct bundleType; intros s [= <-]; try apply map_Forall_empty;
      exact (legacy_aliases_quoted cwd legacyModules).
  - intros s [= <-]. apply replaceBundleStubModules_quoted.
  - intros s [= <-]. apply replaceFeatureFlags_quoted.
Qed.

(** X16. In a development bundle, and in [RN_PROD], a dev-only module is
    stubbed only on the caller's request: the table of
    [getDefaultReplaceModules] has for a dev-only name exactly the entry of
    the caller's stubs, none when the caller did not list the module. *)
Theorem dev_only_modules_kept_in_development {world exn : Type} (cwd : string)
    (bundleType : bundleType) (stubs : value) (featureFlags : option string)
    (w : world) (name : string) :
  bundleType ∈ [UMD_DEV; NODE_DEV; FB_DEV; RN_DEV; RN_PROD] ->
  name ∈ devOnlyFilesToStubOut ->
  exists replacements : table,
    getDefaultReplaceModules (exn := exn) cwd bundleType stubs featureFlags w
    = Normal replacements w
    /\ replacements !! name = replaceBundleStubModules cwd stubs !! name.
Proof.
  intros Hdev Hname. eexists. split; [apply getDefaultReplaceModules_run|].
  rewrite lookup_Object_assign.
  remember (replaceBundleStubModules cwd stubs) as stubbed eqn:Hstubbed.
  simpl.
  rewrite replaceFeatureFlags_other.
  2:{ intros ->. revert Hname. apply (bool_decide_unpack _). vm_compute. exact I. }
  destruct (stubbed !! name) as [v|]; [reflexivity|].
  unfold devOnlyFilesToStubOut in Hname.
  repeat (apply elem_of_cons in Hname as [-> | Hname]);
    [ .. | by apply elem_of_nil in Hname ];
    repeat (apply elem_of_cons in Hdev as [-> | Hdev]);
    solve [ reflexivity | by apply elem_of_nil in Hdev ].
Qed.

Lemma dev_only_modules_kept_in_development_witness :
  RN_PROD ∈ [UMD_DEV; NODE_DEV; FB_DEV; RN_DEV; RN_PROD]
  /\ "'ReactPerf'" ∈ devOnlyFilesToStubOut
  /\ exists replacements : table,
       Sample.getDefaultReplaceModules RN_PROD (Array ["ReactTestUtils"]) None []
       = Normal replacements []
       /\ replacements !! "'ReactPerf'"
          = replaceBundleStubModules Sample.cwd (Array ["ReactTestUtils"])
              !! "'ReactPerf'".
Proof.
  split; [apply (bool_decide_unpack _); vm_compute; exact I|].
  split; [apply (bool_decide_unpack _); vm_compute; exact I|].
  apply (dev_only_modules_kept_in_development Sample.cwd RN_PROD
           (Array ["ReactTestUtils"]) None [] "'ReactPerf'");
    apply (bool_decide_unpack _); vm_compute; exact I.
Defined.

Lemma fold_set_property_lookup (value : string -> string) (names : list string)
    (acc : table) (key : string) :
  fold_left (fun object name => set_property name (value name) object) names acc
    !! key
  = if decide (key ∈ names /\ key <> "__proto__") then Some (value key)
    else acc !! key.
Proof.
  revert acc. induction names as [|name names IH]; intros acc; cbn [fold_left].
  - destruct (decide (key ∈ [] /\ key <> "__proto__")) as [[Hd _] | _]; [|done].
    by apply elem_of_nil in Hd.
  - rewrite IH, lookup_set_property.
    destruct (decide (key ∈ names /\ key <> "__proto__")) as [[Hin Hp] | Hnot].
    + rewrite decide_True; [done | split; [by right | done]].
    + destruct (decide (name = key /\ name <> "__proto__")) as [[-> Hp] | Hne].
      * rewrite decide_True; [done | split; [left | done]].
      * rewrite decide_False; [done|].
        intros [[-> | Hin]%elem_of_cons Hp]; [by apply Hne | by apply Hnot].
Qed.

(** X17. For [UMD_DEV] and [UMD_PROD] the keys of [getFbjsModuleAliases] are
    exactly the names of [fbjsModules], each with the resolved path of the
    module of that name under [node_modules] as its value. *)
Theorem getFbjsModuleAliases_umd (cwd : string) (key : string) :
  Forall (fun bundleType =>
            entry_of (getFbjsModuleAliases cwd bundleType) key
            = if decide (key ∈ fbjsModules)
              then Some (Path.resolve cwd ("./node_modules/" +:+ key))
              else None)
         [UMD_DEV; UMD_PROD].
Proof.
  assert (Hfold :
    fold_left (fun fbjsModulesAlias fbjsModule =>
                 set_property fbjsModule (resolve cwd ("./node_modules/" +:+ fbjsModule))
                   fbjsModulesAlias)
              fbjsModules ∅ !! key
    = if decide (key ∈ fbjsModules)
      then Some (Path.resolve cwd ("./node_modules/" +:+ key)) else None).
  { rewrite (fold_set_property_lookup
               (fun name => resolve cwd ("./node_modules/" +:+ name))).
    rewrite lookup_empty.
    destruct (decide (key ∈ fbjsModules)) as [Hin | Hnot].
    - rewrite decide_True; [done | split; [done|]].
      intros ->. revert Hin. apply (bool_decide_unpack _). vm_compute. exact I.
    - rewrite decide_False; [done | by intros [Hin _]]. }
  repeat (apply Forall_cons; split); [.. | apply Forall_nil_2]; exact Hfold.
Qed.
